(** * Deduplication engine and event router: a shallow embedding

    The development embeds two classes of the monitoring agent:

    - [DeduplicationEngine] (src/utils/deduplication.py): fingerprints of
      observations, the time bucketing, and the TTL cache in front of the
      durable store;
    - [EventRouter] (src/core/event_router.py) together with the
      listen/notify part of [Database] (src/core/database.py).

    Python values are a small inductive universe, dictionaries are [gmap]s
    (association lists where the iteration order is observable), exceptions
    are an error type, the wall clock and the durable store are explicit
    inputs, and the log is an explicit output. *)

From Stdlib Require Import ZArith Ascii String List Lia Bool DecimalString.
From stdpp Require Import base option gmap strings list.
Import ListNotations.

Local Open Scope string_scope.
Local Open Scope Z_scope.

(** ** SHA-256 (hashlib.sha256), over 32-bit words kept in [Z] *)

Module Sha256.

Definition w32 : Z := 2 ^ 32.

Definition add32 (x y : Z) : Z := (x + y) mod w32.

Definition rotr (n x : Z) : Z :=
  Z.lor (Z.shiftr x n) ((Z.shiftl x (32 - n)) mod w32).

Definition shr (n x : Z) : Z := Z.shiftr x n.

Definition not32 (x : Z) : Z := w32 - 1 - x.

Definition Ch (x y z : Z) : Z := Z.lxor (Z.land x y) (Z.land (not32 x) z).
Definition Maj (x y z : Z) : Z :=
  Z.lxor (Z.lxor (Z.land x y) (Z.land x z)) (Z.land y z).
Definition Sigma0 (x : Z) : Z := Z.lxor (Z.lxor (rotr 2 x) (rotr 13 x)) (rotr 22 x).
Definition Sigma1 (x : Z) : Z := Z.lxor (Z.lxor (rotr 6 x) (rotr 11 x)) (rotr 25 x).
Definition sigma0 (x : Z) : Z := Z.lxor (Z.lxor (rotr 7 x) (rotr 18 x)) (shr 3 x).
Definition sigma1 (x : Z) : Z := Z.lxor (Z.lxor (rotr 17 x) (rotr 19 x)) (shr 10 x).

(** The round constants are the first 32 bits of the fractional parts of the
    cube roots of the first 64 primes, and the initial hash value those of the
    square roots of the first 8 primes (FIPS 180-4, 4.2.2 and 5.3.3). *)
Definition is_prime (n : nat) : bool :=
  forallb (fun d => negb (Nat.modulo n d =? 0)%nat) (seq 2 (n - 2)).

Definition primes (count : nat) : list Z :=
  map Z.of_nat (firstn count (filter is_prime (seq 2 310))).

(** The largest [x] below [2 ^ bits] with [pow x <= n], one bit at a time. *)
Fixpoint iroot (pow : Z -> Z) (n : Z) (bits : nat) (x : Z) : Z :=
  match bits with
  | O => x
  | S b =>
      let y := x + 2 ^ Z.of_nat b in
      iroot pow n b (if pow y <=? n then y else x)
  end.

Definition frac_bits (pow : Z -> Z) (shift : Z) (p : Z) : Z :=
  iroot pow (p * 2 ^ shift) 40 0 mod w32.

Definition K : list Z :=
  Eval vm_compute in map (frac_bits (fun x => x * x * x) 96) (primes 64).

Definition init_words : list Z :=
  Eval vm_compute in map (frac_bits (fun x => x * x) 64) (primes 8).

(** Padding: a 1 bit, zeros up to 56 mod 64, the bit length on 8 bytes. *)
Definition be_bytes (n : nat) (x : Z) : list Z :=
  map (fun i => (Z.shiftr x (8 * Z.of_nat i)) mod 256) (rev (seq 0 n)).

Definition pad (msg : list Z) : list Z :=
  let len := Z.of_nat (length msg) in
  let zeros := Z.to_nat ((55 - len) mod 64) in
  msg ++ [0x80] ++ repeat 0 zeros ++ be_bytes 8 (8 * len).

Fixpoint be_words (bs : list Z) : list Z :=
  match bs with
  | a :: b :: c :: d :: rest =>
      (((a * 256 + b) * 256 + c) * 256 + d) :: be_words rest
  | _ => []
  end.

Fixpoint chunks (fuel : nat) (ws : list Z) : list (list Z) :=
  match fuel, ws with
  | O, _ | _, [] => []
  | S fuel', _ => firstn 16 ws :: chunks fuel' (skipn 16 ws)
  end.

(** The message schedule, most recent word first. *)
Fixpoint schedule (n : nat) (rev_w : list Z) : list Z :=
  match n with
  | O => rev_w
  | S n' =>
      let w := add32 (add32 (sigma1 (nth 1 rev_w 0)) (nth 6 rev_w 0))
                     (add32 (sigma0 (nth 14 rev_w 0)) (nth 15 rev_w 0)) in
      schedule n' (w :: rev_w)
  end.

Record regs := Regs { ra : Z; rb : Z; rc : Z; rd : Z; re : Z; rf : Z; rg : Z; rh : Z }.

Definition round (r : regs) (kw : Z * Z) : regs :=
  let t1 := add32 (add32 (add32 (rh r) (Sigma1 (re r))) (Ch (re r) (rf r) (rg r)))
                  (add32 (fst kw) (snd kw)) in
  let t2 := add32 (Sigma0 (ra r)) (Maj (ra r) (rb r) (rc r)) in
  Regs (add32 t1 t2) (ra r) (rb r) (rc r) (add32 (rd r) t1) (re r) (rf r) (rg r).

Definition compress (h : regs) (block : list Z) : regs :=
  let w := rev (schedule 48 (rev block)) in
  let r := fold_left round (combine K w) h in
  Regs (add32 (ra h) (ra r)) (add32 (rb h) (rb r)) (add32 (rc h) (rc r))
       (add32 (rd h) (rd r)) (add32 (re h) (re r)) (add32 (rf h) (rf r))
       (add32 (rg h) (rg r)) (add32 (rh h) (rh r)).

Definition init : regs :=
  let h i := nth i init_words 0 in
  Regs (h 0%nat) (h 1%nat) (h 2%nat) (h 3%nat) (h 4%nat) (h 5%nat) (h 6%nat) (h 7%nat).

Definition digest_words (msg : list Z) : list Z :=
  let ws := be_words (pad msg) in
  let r := fold_left compress (chunks (length ws) ws) init in
  [ra r; rb r; rc r; rd r; re r; rf r; rg r; rh r].

Definition hex_digit (d : Z) : ascii :=
  if d <? 10 then ascii_of_N (Z.to_N (48 + d)) else ascii_of_N (Z.to_N (87 + d)).

Definition hex_word (x : Z) : list ascii :=
  map (fun i => hex_digit ((Z.shiftr x (4 * Z.of_nat i)) mod 16)) (rev (seq 0 8)).

Definition bytes_of_string (s : string) : list Z :=
  map (fun c => Z.of_N (N_of_ascii c)) (list_ascii_of_string s).

(** [hashlib.sha256(s.encode('utf-8')).hexdigest()]; a [string] is taken as
    the UTF-8 bytes of the Python text. *)
Definition hexdigest (s : string) : string :=
  string_of_list_ascii (concat (map hex_word (digest_words (bytes_of_string s)))).

End Sha256.

(** ** Python values, exceptions and text helpers *)

(** Exceptions the embedded code can raise or catch.  [TransportError] stands
    for whatever the asyncpg pool, connection or query raises; its text is what
    the handlers interpolate into their log lines. *)
Inductive exn :=
| TypeError (msg : string)
| AttributeError (msg : string)
| ValueError (msg : string)
| ZeroDivisionError (msg : string)
| TransportError (msg : string).

Definition exn_str (e : exn) : string :=
  match e with
  | TypeError m | AttributeError m | ValueError m
  | ZeroDivisionError m | TransportError m => m
  end.

Inductive result (A : Type) :=
| Ok (a : A)
| Raise (e : exn).
Arguments Ok {A} a.
Arguments Raise {A} e.

Definition is_ok {A} (r : result A) : bool :=
  match r with Ok _ => true | Raise _ => false end.

Definition str_of_nonneg (n : Z) : string :=
  NilZero.string_of_uint (N.to_uint (Z.to_N n)).

(** [str(n)] for an [int]. *)
Definition str_of_int (n : Z) : string :=
  if n <? 0 then "-" ++ str_of_nonneg (- n) else str_of_nonneg n.

(** ["%0<w>d" % n] for a non-negative [n]. *)
Definition zfill (w : nat) (s : string) : string :=
  string_of_list_ascii (repeat "0"%char (w - String.length s)) ++ s.

Definition fmt_d (w : nat) (n : Z) : string := zfill w (str_of_nonneg n).

(** [sep.join(parts)] *)
Fixpoint join (sep : string) (parts : list string) : string :=
  match parts with
  | [] => ""
  | [p] => p
  | p :: rest => p ++ sep ++ join sep rest
  end.

(** A continuation byte of a UTF-8 sequence ([10xxxxxx]). *)
Definition is_continuation (c : ascii) : bool :=
  let n := N_of_ascii c in ((128 <=? n) && (n <? 192))%N.

(** [s[:n]]: the first [n] characters, a character being a lead byte with
    the continuation bytes that follow it. *)
Fixpoint prefix (n : nat) (s : string) : string :=
  match s with
  | EmptyString => EmptyString
  | String c rest =>
      if is_continuation c then String c (prefix n rest)
      else match n with
           | O => EmptyString
           | S n' => String c (prefix n' rest)
           end
  end.

(** [s.replace(old, new)] for a one-character [old]. *)
Fixpoint replace_char (old : ascii) (new : string) (s : string) : string :=
  match s with
  | EmptyString => EmptyString
  | String c rest =>
      if Ascii.eqb c old then new ++ replace_char old new rest
      else String c (replace_char old new rest)
  end.

(** ** datetime *)

(** A [datetime.datetime]: the calendar fields and, for an aware value, the
    UTC offset of its fixed-offset [tzinfo], in microseconds. *)
Record datetime := Datetime {
  year : Z; month : Z; day : Z;
  hour : Z; minute : Z; second : Z; microsecond : Z;
  tzinfo : option Z
}.

Definition is_leap (y : Z) : bool :=
  (y mod 4 =? 0) && (negb (y mod 100 =? 0) || (y mod 400 =? 0)).

Definition days_in_month (y m : Z) : Z :=
  if m =? 2 then (if is_leap y then 29 else 28)
  else if (m =? 4) || (m =? 6) || (m =? 9) || (m =? 11) then 30 else 31.

Definition days_before_year (y : Z) : Z :=
  let p := y - 1 in p * 365 + p / 4 - p / 100 + p / 400.

Definition days_before_month (y m : Z) : Z :=
  fold_right Z.add 0 (map (fun k => days_in_month y (Z.of_nat k)) (seq 1 (Z.to_nat (m - 1)))).

Definition toordinal (d : datetime) : Z :=
  days_before_year (year d) + days_before_month (year d) (month d) + day d.

(** Microseconds since the start of year 1, ignoring [tzinfo] (the engine only
    subtracts naive values that [utcnow] returned). *)
Definition micros (d : datetime) : Z :=
  ((toordinal d * 86400 + hour d * 3600 + minute d * 60 + second d) * 1000000)
  + microsecond d.

(** [(a - b).seconds]: the seconds field of the normalised [timedelta]
    (days, 0 <= seconds < 86400, 0 <= microseconds < 10^6); the days are a
    separate field and are not part of it. *)
Definition timedelta_seconds (a b : datetime) : Z :=
  ((micros a - micros b) / 1000000) mod 86400.

(** [(a - b).total_seconds()] rounded down to whole seconds. *)
Definition timedelta_total_seconds (a b : datetime) : Z :=
  (micros a - micros b) / 1000000.

(** The range checks of the [datetime] constructor and of [replace]. *)
Definition valid_fields (d : datetime) : bool :=
  (1 <=? year d) && (year d <=? 9999) && (1 <=? month d) && (month d <=? 12)
  && (1 <=? day d) && (day d <=? days_in_month (year d) (month d))
  && (0 <=? hour d) && (hour d <=? 23) && (0 <=? minute d) && (minute d <=? 59)
  && (0 <=? second d) && (second d <=? 59)
  && (0 <=? microsecond d) && (microsecond d <=? 999999).

(** The offset suffix of [isoformat]: [+HH:MM], with [:SS] and [.ffffff] only
    when they are not zero. *)
Definition format_offset (off : Z) : string :=
  let a := Z.abs off in
  let hh := a / 3600000000 in
  let mm := (a / 60000000) mod 60 in
  let ss := (a / 1000000) mod 60 in
  let us := a mod 1000000 in
  (if off <? 0 then "-" else "+") ++ fmt_d 2 hh ++ ":" ++ fmt_d 2 mm
  ++ (if (ss =? 0) && (us =? 0) then "" else ":" ++ fmt_d 2 ss)
  ++ (if us =? 0 then "" else "." ++ fmt_d 6 us).

(** [d.isoformat(sep)] *)
Definition isoformat_sep (sep : string) (d : datetime) : string :=
  fmt_d 4 (year d) ++ "-" ++ fmt_d 2 (month d) ++ "-" ++ fmt_d 2 (day d) ++ sep
  ++ fmt_d 2 (hour d) ++ ":" ++ fmt_d 2 (minute d) ++ ":" ++ fmt_d 2 (second d)
  ++ (if microsecond d =? 0 then "" else "." ++ fmt_d 6 (microsecond d))
  ++ match tzinfo d with None => "" | Some off => format_offset off end.

Definition isoformat (d : datetime) : string := isoformat_sep "T" d.

(** *** [datetime.fromisoformat]

    The texts that [isoformat] produces:
    [YYYY-MM-DD[*HH[:MM[:SS[.fff[fff]]]][+HH:MM[:SS[.ffffff]]]]], where [*]
    is any one character, with every field in range; a date followed by a
    separator and nothing else is refused.  CPython 3.7 and every later
    version read such a text, to the value given here.  [None] stands for
    the [ValueError] of CPython 3.7 to 3.10; later versions read more of
    ISO 8601 (3.11 reads ["20240101T100330"]), so the statements below rest
    on [Some] answers, and on [None] only for texts that no version reads. *)

Definition digit_of (c : ascii) : option Z :=
  let n := Z.of_N (N_of_ascii c) in
  if (48 <=? n) && (n <=? 57) then Some (n - 48) else None.

Fixpoint parse_digits (n : nat) (acc : Z) (s : string) : option (Z * string) :=
  match n, s with
  | O, _ => Some (acc, s)
  | S n', String c rest =>
      match digit_of c with
      | Some d => parse_digits n' (acc * 10 + d) rest
      | None => None
      end
  | S _, EmptyString => None
  end.

Definition expect_char (c : ascii) (s : string) : option string :=
  match s with
  | String c' rest => if Ascii.eqb c c' then Some rest else None
  | EmptyString => None
  end.

(** [.fff] or [.ffffff], the dot already consumed. *)
Definition parse_fraction (s : string) : option Z :=
  match String.length s with
  | 3%nat => match parse_digits 3 0 s with Some (v, _) => Some (v * 1000) | None => None end
  | 6%nat => match parse_digits 6 0 s with Some (v, _) => Some v | None => None end
  | _ => None
  end.

(** [HH[:MM[:SS[.fff[fff]]]]] *)
Definition parse_hh_mm_ss_ff (s : string) : option (Z * Z * Z * Z) :=
  match parse_digits 2 0 s with
  | None => None
  | Some (hh, EmptyString) => Some (hh, 0, 0, 0)
  | Some (hh, s1) =>
      match expect_char ":" s1 with
      | None => None
      | Some s2 =>
          match parse_digits 2 0 s2 with
          | None => None
          | Some (mm, EmptyString) => Some (hh, mm, 0, 0)
          | Some (mm, s3) =>
              match expect_char ":" s3 with
              | None => None
              | Some s4 =>
                  match parse_digits 2 0 s4 with
                  | None => None
                  | Some (ss, EmptyString) => Some (hh, mm, ss, 0)
                  | Some (ss, s5) =>
                      match expect_char "." s5 with
                      | None => None
                      | Some s6 =>
                          match parse_fraction s6 with
                          | Some us => Some (hh, mm, ss, us)
                          | None => None
                          end
                      end
                  end
              end
          end
      end
  end.

(** Splits the time text at its first sign character: the clock part, and the
    sign ([true] for minus) with the offset text when there is one. *)
Fixpoint split_offset (s : string) : string * option (bool * string) :=
  match s with
  | EmptyString => (EmptyString, None)
  | String c rest =>
      if Ascii.eqb c "+" then (EmptyString, Some (false, rest))
      else if Ascii.eqb c "-" then (EmptyString, Some (true, rest))
      else let '(t, o) := split_offset rest in (String c t, o)
  end.

(** The offset text has length 5, 8 or 15; the resulting [timezone] must be
    strictly inside one day. *)
Definition parse_offset (neg : bool) (s : string) : option Z :=
  if negb ((String.length s =? 5)%nat || (String.length s =? 8)%nat
           || (String.length s =? 15)%nat) then None
  else
    match parse_hh_mm_ss_ff s with
    | None => None
    | Some (hh, mm, ss, us) =>
        let off := (hh * 3600 + mm * 60 + ss) * 1000000 + us in
        let off := if neg then - off else off in
        if Z.abs off <? 86400000000 then Some off else None
    end.

Definition parse_isoformat_time (s : string) : option (Z * Z * Z * Z * option Z) :=
  let '(clock, o) := split_offset s in
  match parse_hh_mm_ss_ff clock with
  | None => None
  | Some (hh, mm, ss, us) =>
      match o with
      | None => Some (hh, mm, ss, us, None)
      | Some (neg, otext) =>
          match parse_offset neg otext with
          | Some off => Some (hh, mm, ss, us, Some off)
          | None => None
          end
      end
  end.

Definition parse_isoformat_date (s : string) : option (Z * Z * Z * string) :=
  match parse_digits 4 0 s with
  | None => None
  | Some (y, s1) =>
      match expect_char "-" s1 with
      | None => None
      | Some s2 =>
          match parse_digits 2 0 s2 with
          | None => None
          | Some (m, s3) =>
              match expect_char "-" s3 with
              | None => None
              | Some s4 =>
                  match parse_digits 2 0 s4 with
                  | None => None
                  | Some (d, rest) => Some (y, m, d, rest)
                  end
              end
          end
      end
  end.

Definition checked (d : datetime) : option datetime :=
  if valid_fields d then Some d else None.

Definition fromisoformat (s : string) : option datetime :=
  match parse_isoformat_date s with
  | None => None
  | Some (y, m, d, EmptyString) => checked (Datetime y m d 0 0 0 0 None)
  | Some (y, m, d, String _ tstr) =>
      match parse_isoformat_time tstr with
      | None => None
      | Some (hh, mm, ss, us, tz) => checked (Datetime y m d hh mm ss us tz)
      end
  end.

(** [d.replace(minute=m, second=0, microsecond=0)] *)
Definition replace_minute (d : datetime) (m : Z) : result datetime :=
  let d' := Datetime (year d) (month d) (day d) (hour d) m 0 0 (tzinfo d) in
  if (0 <=? m) && (m <=? 59) then Ok d'
  else Raise (ValueError "minute must be in 0..59").

(** ** Observations *)

(** The values an observation carries: [None], [bool], [int], [str],
    [datetime], and any other value, such as the [float], [list] and [dict]
    that [json.loads] yields.  The code applies three operations to a
    value: [bool(v)], [str(v)] and the attribute [minute], which none of
    these other types has.  Such a value is given by the name of its type,
    its truth value and its [str]. *)
Inductive value :=
| VNone
| VBool (b : bool)
| VInt (n : Z)
| VStr (s : string)
| VDatetime (d : datetime)
| VOther (type_name : string) (truth : bool) (text : string).

(** [bool(v)] *)
Definition truthy (v : value) : bool :=
  match v with
  | VNone => false
  | VBool b => b
  | VInt n => negb (n =? 0)
  | VStr s => negb (String.eqb s "")
  | VDatetime _ => true
  | VOther _ truth _ => truth
  end.

(** [str(v)] *)
Definition py_str (v : value) : string :=
  match v with
  | VNone => "None"
  | VBool true => "True"
  | VBool false => "False"
  | VInt n => str_of_int n
  | VStr s => s
  | VDatetime d => isoformat_sep " " d
  | VOther _ _ text => text
  end.

(** An observation is a [Dict[str, Any]]. *)
Abbreviation observation := (gmap string value).

(** [data.get(k)]: [None] when the key is absent. *)
Definition get (data : observation) (k : string) : value :=
  default VNone (data !! k).

(** [data.get(k, '')] *)
Definition get_or_empty (data : observation) (k : string) : value :=
  default (VStr "") (data !! k).

(** [a or b]: the first operand when it is truthy, else the second. *)
Definition py_or (a b : value) : value := if truthy a then a else b.

(** ** DeduplicationEngine *)

(** What [self.bucket_minutes] holds: [__init__] assigns [5,], which is the
    one-element tuple [(5,)]; [set_bucket_interval] assigns its argument. *)
Inductive bucket_setting :=
| BucketTuple (n : Z)
| BucketInt (n : Z).

(** A cache entry is the pair [(cache_time, exists)]. *)
Record DeduplicationEngine := Engine {
  bucket_minutes : bucket_setting;
  cache : gmap string (datetime * bool);
  cache_ttl : Z
}.

(** [DeduplicationEngine.__init__] *)
Definition init_engine : DeduplicationEngine :=
  Engine (BucketTuple 5) ∅ 3600.

(** [timestamp.minute // self.bucket_minutes * self.bucket_minutes] *)
Definition bucket_floor (m : Z) (b : bucket_setting) : result Z :=
  match b with
  | BucketTuple _ =>
      Raise (TypeError "unsupported operand type(s) for //: 'int' and 'tuple'")
  | BucketInt n =>
      if n =? 0 then Raise (ZeroDivisionError "integer division or modulo by zero")
      else Ok (m / n * n)
  end.

(** [_bucket_timestamp]; [now] is what [datetime.utcnow()] returns if it is
    called.  A value that is neither [str] nor [datetime] has no [minute]. *)
Definition _bucket_timestamp (self : DeduplicationEngine) (now : datetime)
    (timestamp : value) : result string :=
  let parsed :=
    match timestamp with
    | VStr s =>
        match fromisoformat (replace_char "Z" "+00:00" s) with
        | Some d => Ok d
        | None => Ok now
        end
    | VDatetime d => Ok d
    | VNone => Raise (AttributeError "'NoneType' object has no attribute 'minute'")
    | VBool _ => Raise (AttributeError "'bool' object has no attribute 'minute'")
    | VInt _ => Raise (AttributeError "'int' object has no attribute 'minute'")
    | VOther ty _ _ =>
        Raise (AttributeError ("'" ++ ty ++ "' object has no attribute 'minute'"))
    end in
  match parsed with
  | Raise e => Raise e
  | Ok d =>
      match bucket_floor (minute d) (bucket_minutes self) with
      | Raise e => Raise e
      | Ok minutes =>
          match replace_minute d minutes with
          | Raise e => Raise e
          | Ok bucketed => Ok (isoformat bucketed)
          end
      end
  end.

(** The [timestamp] local of [generate_fingerprint]. *)
Definition select_timestamp (data : observation) : value :=
  py_or (py_or (py_or (get data "timestamp") (get data "executed_at"))
               (get data "recorded_at"))
        (get data "measured_at").

(** [if data.get(k): key_parts.append(str(data[k]))] *)
Definition optional_part (data : observation) (k : string) : list string :=
  if truthy (get data k) then [py_str (get data k)] else [].

Definition identity_parts (data : observation) : list string :=
  [ py_str (get_or_empty data "db_id");
    py_str (get_or_empty data "table_name");
    py_str (get_or_empty data "event_type") ].

Definition disambiguator_parts (data : observation) : list string :=
  optional_part data "query_hash" ++ optional_part data "index_name"
  ++ optional_part data "column_name".

(** The time component of the key: nothing for a falsy timestamp. *)
Definition time_parts (self : DeduplicationEngine) (now : datetime)
    (data : observation) (bucket_time : bool) : result (list string) :=
  let timestamp := select_timestamp data in
  if truthy timestamp then
    if bucket_time then
      match _bucket_timestamp self now timestamp with
      | Ok bucketed => Ok [bucketed]
      | Raise e => Raise e
      end
    else Ok [py_str timestamp]
  else Ok [].

(** The colon-joined text that is hashed. *)
Definition key_string (self : DeduplicationEngine) (now : datetime)
    (data : observation) (bucket_time : bool) : result string :=
  match time_parts self now data bucket_time with
  | Raise e => Raise e
  | Ok tp => Ok (join ":" (identity_parts data ++ tp ++ disambiguator_parts data))
  end.

Definition generate_fingerprint (self : DeduplicationEngine) (now : datetime)
    (data : observation) (bucket_time : bool) : result string :=
  match key_string self now data bucket_time with
  | Raise e => Raise e
  | Ok k => Ok (Sha256.hexdigest k)
  end.

(** [set_bucket_interval] *)
Definition set_bucket_interval (self : DeduplicationEngine) (minutes : Z)
    : result DeduplicationEngine :=
  if (minutes <? 1) || (60 <? minutes)
  then Raise (ValueError "Bucket interval must be between 1 and 60 minutes")
  else Ok (Engine (BucketInt minutes) (cache self) (cache_ttl self)).

(** ** The engine's surroundings: clock, durable store, log *)

Inductive level := DEBUG | INFO | WARNING | ERROR.

(** [clock] lists the successive results of [datetime.utcnow()] and [reads]
    counts how many were taken; [oracle n sql arg] is the outcome of the
    [n]-th call of [db.fetchval_ts_db(sql, arg)]; [queries] records the calls
    made, oldest first; [log] records the logger calls, oldest first. *)
Record World := MkWorld {
  clock : nat -> datetime;
  reads : nat;
  oracle : nat -> string -> string -> result bool;
  queries : list (string * string);
  log : list (level * string)
}.

Definition utcnow (w : World) : datetime * World :=
  (clock w (reads w),
   MkWorld (clock w) (S (reads w)) (oracle w) (queries w) (log w)).

Definition fetchval_ts_db (w : World) (sql arg : string) : result bool * World :=
  (oracle w (length (queries w)) sql arg,
   MkWorld (clock w) (reads w) (oracle w) (queries w ++ [(sql, arg)]) (log w)).

Definition logger (lvl : level) (msg : string) (w : World) : World :=
  MkWorld (clock w) (reads w) (oracle w) (queries w) (log w ++ [(lvl, msg)]).

Definition newline : string := String (ascii_of_nat 10) EmptyString.

(** [_get_time_column] *)
Definition time_columns : list (string * string) :=
  [ ("schema_metadata", "captured_at");
    ("query_performance", "executed_at");
    ("index_analytics", "measured_at");
    ("table_statistics", "recorded_at");
    ("semantic_relationships", "discovered_at");
    ("system_health", "timestamp");
    ("data_quality_metrics", "measured_at");
    ("agent_actions", "executed_at") ].

Definition _get_time_column (hypertable : string) : string :=
  default "timestamp"
    (snd <$> List.find (fun kv => String.eqb (fst kv) hypertable) time_columns).

(** The f-string key of [alread_exists] and [mark_inserted]. *)
Definition cache_key (hypertable fingerprint : string) : string :=
  hypertable ++ ":" ++ fingerprint.

(** The [query] f-string of [alread_exists]. *)
Definition existence_query (hypertable : string) (lookback_hours : Z) : string :=
  "SELECT EXISTS (" ++ newline
  ++ "        SELECT 1 FROM _agentic." ++ hypertable
  ++ " WHERE fingerprint =$1 AND " ++ _get_time_column hypertable
  ++ "> NOW() - INTERVAL '" ++ str_of_int lookback_hours ++ "' hours);".

Definition set_cache (self : DeduplicationEngine) (c : gmap string (datetime * bool))
    : DeduplicationEngine :=
  Engine (bucket_minutes self) c (cache_ttl self).

(** The second tier of [alread_exists]: the store is asked and a successful
    answer is cached; an exception is logged and answered with [False]. *)
Definition query_oracle (self : DeduplicationEngine) (w : World)
    (fingerprint hypertable : string) (lookback_hours : Z)
    : bool * DeduplicationEngine * World :=
  let query := existence_query hypertable lookback_hours in
  let '(r, w1) := fetchval_ts_db w query fingerprint in
  match r with
  | Ok exists_ =>
      let '(now, w2) := utcnow w1 in
      let self' :=
        set_cache self (<[cache_key hypertable fingerprint := (now, exists_)]> (cache self)) in
      (exists_, self',
       logger DEBUG ("Fingerprint " ++ (if exists_ then "exists" else "not found")
                     ++ ": " ++ prefix 16 fingerprint ++ "..") w2)
  | Raise e =>
      (false, self,
       logger ERROR ("Error checking fingerprint existence: " ++ exn_str e) w1)
  end.

(** [alread_exists] (the name is the source's). *)
Definition alread_exists (self : DeduplicationEngine) (w : World)
    (fingerprint hypertable : string) (lookback_hours : Z)
    : bool * DeduplicationEngine * World :=
  match cache self !! cache_key hypertable fingerprint with
  | Some (cache_time, exists_) =>
      let '(now, w1) := utcnow w in
      if timedelta_seconds now cache_time <? cache_ttl self then
        (exists_, self,
         logger DEBUG ("Cache hit for fingerprint: " ++ prefix 16 fingerprint ++ "...") w1)
      else query_oracle self w1 fingerprint hypertable lookback_hours
  | None => query_oracle self w fingerprint hypertable lookback_hours
  end.

(** [mark_inserted] *)
Definition mark_inserted (self : DeduplicationEngine) (w : World)
    (fingerprint hypertable : string) : DeduplicationEngine * World :=
  let '(now, w1) := utcnow w in
  (set_cache self (<[cache_key hypertable fingerprint := (now, true)]> (cache self)),
   logger DEBUG ("Marked as insertd: " ++ prefix 16 fingerprint ++ "...") w1).

(** [clear_cache] *)
Definition clear_cache (self : DeduplicationEngine) (w : World)
    : DeduplicationEngine * World :=
  (set_cache self ∅, logger INFO "deduplication cache got cleared..." w).

(** [cleanup_old_cache] *)
Definition cleanup_old_cache (self : DeduplicationEngine) (w : World)
    : DeduplicationEngine * World :=
  let '(now, w1) := utcnow w in
  let is_expired (kv : string * (datetime * bool)) : Prop :=
    cache_ttl self < timedelta_seconds now (fst (snd kv)) in
  let expired := filter is_expired (cache self) in
  let kept := filter (fun kv => ¬ is_expired kv) (cache self) in
  (set_cache self kept,
   if decide (expired = ∅) then w1
   else logger INFO ("Cleaed up " ++ str_of_int (Z.of_nat (size expired))
                     ++ " expired cache entries") w1).

(** ** Database (LISTEN/NOTIFY part) and EventRouter *)

(** An asyncpg connection, named by the order in which the pool handed it out. *)
Definition connection := nat.

(** An agent's callback, named by an identifier. *)
Definition callback := nat.

(** What the asyncpg pool and connections answer.  Each field gives, for the
    channel an operation is performed for, the exception it raises, if any:
    [pg_pool.acquire()], [conn.add_listener(channel, listener_callback)] and
    [conn.execute("SELECT pg_notify($1,$2)", channel, payload)].  The pool
    taking a connection back is taken to go through; the only place where
    the code gets that far is the end of the [async with] block of [notify]. *)
Record Transport := MkTransport {
  acquire_fails : string -> option exn;
  add_listener_fails : string -> option exn;
  execute_fails : string -> string -> option exn
}.

(** The transport calls that went through. *)
Inductive op :=
| Acquire (c : connection)
| AddListener (channel : string) (c : connection)
| Release (c : connection)
| PgNotify (channel payload : string).

Inductive stream := Log (lvl : level) | Stdout.

Record Database := MkDb {
  listeners : gmap string connection;
  acquired : nat
}.

(** [subscribers] keeps the insertion order of the Python dict, which is the
    order in which [keys()] iterates. *)
Record EventRouter := MkRouter {
  db : Database;
  subscribers : list (string * list callback);
  running : bool
}.

(** The router, the transport calls made so far and the lines written so far,
    oldest first. *)
Record Sys := MkSys {
  router : EventRouter;
  ops : list op;
  out : list (stream * string)
}.

(** A state and exception monad over [Sys]. *)
Definition M (A : Type) : Type := Sys -> result A * Sys.

Definition ret {A} (a : A) : M A := fun s => (Ok a, s).
Definition raise {A} (e : exn) : M A := fun s => (Raise e, s).
Definition bind {A B} (m : M A) (k : A -> M B) : M B :=
  fun s => match m s with
           | (Ok a, s') => k a s'
           | (Raise e, s') => (Raise e, s')
           end.
(** [try: m  except Exception as e: h e] *)
Definition try_except {A} (m : M A) (h : exn -> M A) : M A :=
  fun s => match m s with
           | (Ok a, s') => (Ok a, s')
           | (Raise e, s') => h e s'
           end.

#[global] Instance M_ret : MRet M := @ret.
#[global] Instance M_bind : MBind M := fun A B k m => bind m k.

Definition gets {A} (f : Sys -> A) : M A := fun s => (Ok (f s), s).
Definition modify (f : Sys -> Sys) : M unit := fun s => (Ok tt, f s).

Definition put_line (st : stream) (msg : string) : M unit :=
  modify (fun s => MkSys (router s) (ops s) (out s ++ [(st, msg)])).
Definition py_print (msg : string) : M unit := put_line Stdout msg.
Definition record_op (o : op) : M unit :=
  modify (fun s => MkSys (router s) (ops s ++ [o]) (out s)).

Definition set_db (f : Database -> Database) : M unit :=
  modify (fun s =>
    MkSys (MkRouter (f (db (router s))) (subscribers (router s)) (running (router s)))
          (ops s) (out s)).
Definition get_running : M bool := gets (fun s => running (router s)).
Definition set_running (b : bool) : M unit :=
  modify (fun s =>
    MkSys (MkRouter (db (router s)) (subscribers (router s)) b) (ops s) (out s)).
Definition set_subscribers (l : list (string * list callback)) : M unit :=
  modify (fun s => MkSys (MkRouter (db (router s)) l (running (router s))) (ops s) (out s)).

(** A transport call: it raises what the transport says, or is recorded. *)
Definition transport_call (failure : option exn) (o : op) : M unit :=
  match failure with
  | Some e => raise e
  | None => record_op o
  end.

(** [await self.pg_pool.acquire()] *)
Definition pool_acquire (t : Transport) (channel : string) : M connection :=
  c ← gets (fun s => acquired (db (router s))) ;
  transport_call (acquire_fails t channel) (Acquire c) ;;
  set_db (fun d => MkDb (listeners d) (S (acquired d))) ;;
  ret c.

(** [Database.listen_channel]; the f-prefix is missing from the string the
    source passes to [logger.error]. *)
Definition listen_channel (t : Transport) (channel : string) : M unit :=
  ls ← gets (fun s => listeners (db (router s))) ;
  match ls !! channel with
  | Some _ => put_line (Log WARNING) ("already listening on channel: " ++ channel)
  | None =>
      try_except
        (conn ← pool_acquire t channel ;
         transport_call (add_listener_fails t channel) (AddListener channel conn) ;;
         set_db (fun d => MkDb (<[channel := conn]> (listeners d)) (acquired d)) ;;
         put_line (Log INFO) ("Listening on channel " ++ channel) ;;
         py_print ("Listening on channel " ++ channel))
        (fun e =>
           put_line (Log ERROR) "Failed to listen on {channel}: {e}" ;;
           py_print ("❌ Failed to listen on " ++ channel ++ ": " ++ exn_str e) ;;
           raise e)
  end.

(** [conn.remove_listener(channel)].  asyncpg declares
    [Connection.remove_listener(self, channel, callback)]; the source passes
    the channel alone, so the call raises [TypeError] before a coroutine is
    made and before anything is sent to the server (the text is the one of
    Python 3.10 and later). *)
Definition remove_listener_error : exn :=
  TypeError
    "Connection.remove_listener() missing 1 required positional argument: 'callback'".

Definition remove_listener (channel : string) : M unit :=
  raise remove_listener_error.

(** [Database.unlisten_channel]: the statements of the [try] block that
    follow [remove_listener] are as in the source. *)
Definition unlisten_channel (channel : string) : M unit :=
  ls ← gets (fun s => listeners (db (router s))) ;
  match ls !! channel with
  | None => put_line (Log WARNING) ("Not listening on channel: " ++ channel)
  | Some conn =>
      try_except
        (remove_listener channel ;;
         record_op (Release conn) ;;
         set_db (fun d => MkDb (delete channel (listeners d)) (acquired d)) ;;
         put_line (Log INFO) ("Stopped listening on: " ++ channel))
        (fun e =>
           put_line (Log ERROR) ("Error unlistening from " ++ channel ++ ": " ++ exn_str e))
  end.

(** [Database.notify]; the [async with] block hands the connection back to
    the pool on both exits. *)
Definition notify (t : Transport) (channel payload : string) : M unit :=
  conn ← pool_acquire t channel ;
  try_except
    (transport_call (execute_fails t channel payload) (PgNotify channel payload) ;;
     put_line (Log DEBUG) ("Notified " ++ channel ++ ": " ++ prefix 100 payload) ;;
     record_op (Release conn))
    (fun e => record_op (Release conn) ;; raise e).

(** [list(self.subscribers.keys())] *)
Definition get_active_channels (r : EventRouter) : list string :=
  map fst (subscribers r).

Definition lookup_channel (channel : string) (subs : list (string * list callback))
    : option (list callback) :=
  snd <$> List.find (fun kv => String.eqb (fst kv) channel) subs.

(** [len(self.subscribers.get(channel, []))] *)
Definition get_subscriber_count (r : EventRouter) (channel : string) : nat :=
  length (default [] (lookup_channel channel (subscribers r))).

(** [self.subscribers[channel].append(callback)] on an existing key. *)
Fixpoint append_callback (channel : string) (cb : callback)
    (subs : list (string * list callback)) : list (string * list callback) :=
  match subs with
  | [] => []
  | (c, cbs) :: rest =>
      if String.eqb c channel then (c, (cbs ++ [cb])%list) :: rest
      else (c, cbs) :: append_callback channel cb rest
  end.

(** [EventRouter.subscribe] *)
Definition subscribe (channel : string) (cb : callback) : M unit :=
  subs ← gets (fun s => subscribers (router s)) ;
  let subs' :=
    match lookup_channel channel subs with
    | Some _ => subs
    | None => (subs ++ [(channel, [])])%list
    end in
  set_subscribers (append_callback channel cb subs') ;;
  put_line (Log INFO) ("agent subscribed to channel: " ++ channel) ;;
  py_print ("agent subscribed to channel: " ++ channel).

(** [l.remove(x)]: the first occurrence goes; [None] is the [ValueError]. *)
Fixpoint list_remove (x : callback) (l : list callback) : option (list callback) :=
  match l with
  | [] => None
  | y :: rest =>
      if Nat.eqb x y then Some rest
      else cons y <$> list_remove x rest
  end.

Fixpoint set_callbacks (channel : string) (cbs' : list callback)
    (subs : list (string * list callback)) : list (string * list callback) :=
  match subs with
  | [] => []
  | (c, cbs) :: rest =>
      if String.eqb c channel then (c, cbs') :: rest
      else (c, cbs) :: set_callbacks channel cbs' rest
  end.

(** [EventRouter.unsubscribe]; the key stays in the dict when its list empties. *)
Definition unsubscribe (channel : string) (cb : callback) : M unit :=
  subs ← gets (fun s => subscribers (router s)) ;
  match lookup_channel channel subs with
  | None => ret tt
  | Some cbs =>
      match list_remove cb cbs with
      | Some cbs' =>
          set_subscribers (set_callbacks channel cbs' subs) ;;
          put_line (Log INFO) ("Agent unsubscribed from channel: " ++ channel)
      | None => put_line (Log WARNING) ("Callback not found in " ++ channel)
      end
  end.

(** The [for] loop of [cleanup]. *)
Fixpoint unlisten_all (channels : list string) : M unit :=
  match channels with
  | [] => ret tt
  | channel :: rest => unlisten_channel channel ;; unlisten_all rest
  end.

(** [EventRouter.cleanup]: one [try] around the whole loop. *)
Definition cleanup : M unit :=
  try_except
    (channels ← gets (fun s => get_active_channels (router s)) ;
     unlisten_all channels ;;
     put_line (Log INFO) "EventRouter cleanup complete")
    (fun e => put_line (Log ERROR) ("Error during cleanup: " ++ exn_str e)).

(** Where [start_listening] stands when control returns to the event loop:
    finished, or suspended in [asyncio.sleep(1)] inside the [while] loop, with
    the channels its [for] loop has not reached yet. *)
Inductive progress :=
| Finished
| Sleeping (rest : list string).

(** The [for] loop of [start_listening], up to its next suspension.  The
    [while self.running] loop is in the body of the [for] loop, after the call
    of [listen_channel] for the current channel. *)
Fixpoint listen_loop (t : Transport) (channels : list string) : M progress :=
  match channels with
  | [] => ret Finished
  | channel :: rest =>
      listen_channel t channel ;;
      put_line (Log INFO) "Event router listening for events.." ;;
      py_print "Event router active...." ;;
      get_running ≫= fun r : bool =>
      if r then ret (Sleeping rest) else listen_loop t rest
  end.

(** The [try / except Exception / finally] around the loop. *)
Definition guarded (body : M progress) : M progress :=
  fun s =>
    match body s with
    | (Ok (Sleeping rest), s') => (Ok (Sleeping rest), s')
    | (Ok Finished, s') => (cleanup ;; ret Finished) s'
    | (Raise e, s') =>
        (put_line (Log ERROR) ("Event router error: " ++ exn_str e) ;;
         py_print ("Event router error: " ++ exn_str e) ;;
         set_running false ;;
         cleanup ;;
         raise e) s'
    end.

(** [EventRouter.start_listening], up to its first suspension. *)
Definition start_listening (t : Transport) : M progress :=
  get_running ≫= fun r : bool =>
  if r then
    put_line (Log WARNING) "EventRouter is already running.." ;; ret Finished
  else
    set_running true ;;
    channels ← gets (fun s => get_active_channels (router s)) ;
    guarded (listen_loop t channels).

(** [start_listening] waking up from [asyncio.sleep(1)]: the [while] condition
    is read again. *)
Definition resume (t : Transport) (rest : list string) : M progress :=
  guarded
    (get_running ≫= fun r : bool =>
     if r then ret (Sleeping rest) else listen_loop t rest).

(** [EventRouter.stop] *)
Definition stop : M unit :=
  put_line (Log INFO) "stopping event router..." ;;
  py_print "stopping event router...." ;;
  set_running false.

Section Emit.

(** [json.dumps], which raises [TypeError] on a value it cannot encode. *)
Variable json_dumps : observation -> result string.

Definition lift {A} (r : result A) : M A :=
  match r with Ok a => ret a | Raise e => raise e end.

(** [data.get('event_type', 'unknown')] inside an f-string. *)
Definition event_type_of (data : observation) : string :=
  py_str (default (VStr "unknown") (data !! "event_type")).

(** [EventRouter.emit]: the handler logs and prints, and does not re-raise. *)
Definition emit (t : Transport) (channel : string) (data : observation) : M unit :=
  try_except
    (payload ← lift (json_dumps data) ;
     notify t channel payload ;;
     put_line (Log INFO) ("Emitted -> " ++ channel ++ ": " ++ event_type_of data) ;;
     py_print ("Emitted -> " ++ channel ++ ": " ++ event_type_of data))
    (fun e =>
       put_line (Log ERROR) ("❌ failed to emit event on " ++ channel ++ ": " ++ exn_str e) ;;
       py_print ("❌ failed to emit event: " ++ exn_str e)).

End Emit.

(** ** Predicates and inputs used in the statements *)

Definition time_fields : list string :=
  ["timestamp"; "executed_at"; "recorded_at"; "measured_at"].

Definition identifying_fields : list string :=
  ["db_id"; "table_name"; "event_type"; "query_hash"; "index_name"; "column_name"].

(** No time field is present with a truthy value. *)
Definition no_timestamp (data : observation) : Prop :=
  Forall (fun k => truthy (get data k) = false) time_fields.

(** The two observations agree on every identifying field. *)
Definition same_identity (d1 d2 : observation) : Prop :=
  Forall (fun k => d1 !! k = d2 !! k) identifying_fields.


(** The selected timestamp is text outside the grammar of [fromisoformat]
    above; on text that the library rejects [_bucket_timestamp] takes
    [datetime.utcnow()] in its place. *)
Definition falls_back_to_now (data : observation) : bool :=
  match select_timestamp data with
  | VStr s =>
      negb (String.eqb s "")
      && negb (bool_decide (is_Some (fromisoformat (replace_char "Z" "+00:00" s))))
  | _ => false
  end.


(** The observation of the slow-query scenario, with its [executed_at]. *)
Definition slow_query (executed_at : string) : observation :=
  <["db_id" := VStr "db1"]>
    (<["table_name" := VStr "orders"]>
       (<["event_type" := VStr "slow_query"]>
          (<["query_hash" := VStr "abc123"]>
             (<["executed_at" := VStr executed_at]> ∅)))).

(** The engine after [set_bucket_interval(5)]. *)
Definition engine5 : DeduplicationEngine := Engine (BucketInt 5) ∅ 3600.

Definition noon : datetime := Datetime 2024 1 1 12 0 0 0 None.

(** A world whose clock always shows [now] and whose store always answers
    [answer]. *)
Definition still_world (now : datetime) (answer : result bool) : World :=
  MkWorld (fun _ => now) 0 (fun _ _ _ => answer) [] [].

Definition sample_fingerprint : string :=
  "5fa900fb644369c8433daabe436334100cbf5d58737f3a5953f3a2cac081bcf3".

(** A fresh engine whose cache holds one positive verdict for
    [sample_fingerprint] in [query_performance], recorded at [cache_time]. *)
Definition engine_with_entry (cache_time : datetime) : DeduplicationEngine :=
  Engine (BucketTuple 5)
         {[ cache_key "query_performance" sample_fingerprint := (cache_time, true) ]}
         3600.

(** A transport on which every call goes through. *)
Definition reliable : Transport :=
  MkTransport (fun _ => None) (fun _ => None) (fun _ _ => None).

(** A transport on which [pg_notify] raises. *)
Definition notify_down : Transport :=
  MkTransport (fun _ => None) (fun _ => None)
              (fun _ _ => Some (TransportError "connection is closed")).

(** The line [unlisten_channel] writes for a channel that has a listener. *)
Definition unlisten_error_line (c : string) : stream * string :=
  (Log ERROR, "Error unlistening from " ++ c ++ ": " ++ exn_str remove_listener_error).

Definition two_channels : list (string * list callback) :=
  [("monitoring_events", [1%nat]); ("performance_events", [2%nat])].

(** A router with two subscribed channels that has not started listening. *)
Definition idle_router : Sys :=
  MkSys (MkRouter (MkDb ∅ 0) two_channels false) [] [].

(** The same router listening on both channels. *)
Definition listening_router : Sys :=
  MkSys (MkRouter
           (MkDb (<["monitoring_events" := 0%nat]> (<["performance_events" := 1%nat]> ∅)) 2)
           two_channels true) [] [].

(** ** Further operations of the engine and of the router *)

(** [should_insert]: [generate_fingerprint(data)] with the default
    [bucket_time=True], then [alread_exists].  The clock is read by the
    fingerprint only on the fallback path of [_bucket_timestamp]; the debug
    line of [generate_fingerprint] is written here, where there is a log.  An
    exception of [generate_fingerprint] propagates to the caller. *)
Definition should_insert (self : DeduplicationEngine) (w : World)
    (data : observation) (hypertable : string) (lookback_hours : Z)
    : result (bool * string) * DeduplicationEngine * World :=
  let now := clock w (reads w) in
  let w1 := if falls_back_to_now data then snd (utcnow w) else w in
  match key_string self now data true with
  | Raise e => (Raise e, self, w1)
  | Ok k =>
      let fingerprint := Sha256.hexdigest k in
      let w2 :=
        logger DEBUG ("Generated fingerprint: " ++ prefix 16 fingerprint
                      ++ "... from " ++ prefix 100 k) w1 in
      let '(exists_, self', w3) :=
        alread_exists self w2 fingerprint hypertable lookback_hours in
      (Ok (negb exists_, fingerprint), self', w3)
  end.

(** The text has no colon. *)
Fixpoint colon_free (s : string) : bool :=
  match s with
  | EmptyString => true
  | String c rest => negb (Ascii.eqb c ":") && colon_free rest
  end.



(** What [json.loads] returns: an object, or a value of another Python type,
    named by that type. *)
Inductive json :=
| JObject (o : observation)
| JOther (type_name : string).

(** What evaluating [callback(data)] gives.  An [async def] function returns
    a coroutine without running its body; the body runs later, inside the
    task, and ends normally or with an exception.  Any other callable runs
    at once: the call raises, or it returns a value, and [create_task] accepts
    a coroutine only and raises [TypeError] on anything else, naming its
    [repr]. *)
Inductive call_outcome :=
| Coroutine (ending : option exn)
| CallRaises (e : exn)
| NotCoroutine (repr : string).

Section HandleEvent.

(** [json.loads]; a [ValueError] stands for [json.JSONDecodeError], which is
    a subclass of it and the only [ValueError] that can arise in the [try]
    block. *)
Variable json_loads : string -> result json.

(** What [callback(data)] gives when the loop evaluates it. *)
Variable run_callback : callback -> observation -> call_outcome.

(** The [for] loop of [handle_event]: [callback(data)] is evaluated and
    handed to [asyncio.create_task], for one subscriber after the other.  The
    loop ends at the first call that raises or that returns something
    [create_task] refuses; the subscribers after it are not called.  A task is
    kept as the callback with the way its coroutine ends. *)
Fixpoint create_tasks (cbs : list callback) (data : observation)
    : result (list (callback * option exn)) :=
  match cbs with
  | [] => Ok []
  | cb :: rest =>
      match run_callback cb data with
      | Coroutine ending =>
          match create_tasks rest data with
          | Ok tasks => Ok ((cb, ending) :: tasks)
          | Raise e => Raise e
          end
      | CallRaises e => Raise e
      | NotCoroutine r => Raise (TypeError ("a coroutine was expected, got " ++ r))
      end
  end.

(** [asyncio.gather] with [return_exceptions=True]: every task runs to its
    end, and its exception, if any, is a result like another. *)
Definition gather (tasks : list (callback * option exn))
    : M (list (callback * option exn)) :=
  ret tasks.

(** [EventRouter.handle_event].  The value is the result list of
    [asyncio.gather], which the source drops; it is kept here to tell which
    tasks were awaited.  It is empty when [gather] is not reached. *)
Definition handle_event (channel payload : string)
    : M (list (callback * option exn)) :=
  let on_error (e : exn) : M (list (callback * option exn)) :=
    put_line (Log ERROR) ("❌ Error handling event: " ++ exn_str e) ;;
    py_print ("❌ Error handling event: " ++ exn_str e) ;;
    ret [] in
  match json_loads payload with
  | Raise (ValueError m) =>
      put_line (Log ERROR) ("❌ Invalid json payload: " ++ m) ;;
      py_print ("❌ Invalid json payload: " ++ m) ;;
      ret []
  | Raise e => on_error e
  | Ok data =>
      try_except
        (subs ← gets (fun s => subscribers (router s)) ;
         match lookup_channel channel subs with
         | Some cbs =>
             match data with
             | JOther ty =>
                 raise (AttributeError ("'" ++ ty ++ "' object has no attribute 'get'"))
             | JObject o =>
                 put_line (Log INFO)
                   ("Event recieved on '" ++ channel ++ "': " ++ event_type_of o) ;;
                 py_print ("Event on '" ++ channel ++ "': " ++ event_type_of o) ;;
                 tasks ← lift (create_tasks cbs o) ;
                 gather tasks
             end
         | None =>
             put_line (Log WARNING) ("No subscribers for channel: " ++ channel) ;;
             ret []
         end)
        on_error
  end.

End HandleEvent.

(** A [json.loads] that knows the empty object and rejects everything else. *)
Definition loads_empty_object (payload : string) : result json :=
  if String.eqb payload "{}" then Ok (JObject ∅)
  else Raise (ValueError "Expecting value: line 1 column 1 (char 0)").

(** Coroutine functions all: the coroutine of callback 1 raises, the others
    return. *)
Definition first_callback_fails (cb : callback) (data : observation) : call_outcome :=
  Coroutine (if Nat.eqb cb 1 then Some (TypeError "unsupported operand") else None).





(** A transport on which [add_listener] raises. *)
Definition add_listener_down : Transport :=
  MkTransport (fun _ => None) (fun _ => Some (TransportError "connection is closed"))
              (fun _ _ => None).

(** The notifications among the transport calls: channel and payload. *)
Definition published (l : list op) : list (string * string) :=
  omap (fun o => match o with PgNotify c p => Some (c, p) | _ => None end) l.

(** [x in l] for a list of callbacks. *)
Definition has_callback (cb : callback) (cbs : list callback) : bool :=
  existsb (Nat.eqb cb) cbs.

(** The callbacks registered for a channel, none when the key is absent. *)
Definition callbacks_of (r : EventRouter) (channel : string) : list callback :=
  default [] (lookup_channel channel (subscribers r)).

(** ** SQLGenerator: identifier check and [build_select] *)

(** The exceptions of this part of src/core/sql_generator.py. *)
Inductive sql_exn :=
| SqlValueError (msg : string)
| UnboundLocalError (msg : string).

(** [_is_valid_identifier].  After the emptiness test the source has
    [pattern -= r'...']: an augmented assignment to the local [pattern], which
    has no value yet, so the statement raises [UnboundLocalError] and the
    regular expression and the length test below it are never reached (the
    message is the one of CPython 3.11). *)
Definition _is_valid_identifier (name : string) : bool + sql_exn :=
  if String.eqb name "" then inl false
  else inr (UnboundLocalError
              "cannot access local variable 'pattern' where it is not associated with a value").

Section BuildSelect.

(** [is_safe], which rests on [sqlparse]. *)
Variable is_safe : string -> bool.

(** [build_select]; [where] and [limit] default to [None], and a [limit] of 0
    is falsy like [None]. *)
Definition build_select (table columns : string) (where_ : option string)
    (limit : option Z) (schema : string) : string + sql_exn :=
  match _is_valid_identifier table with
  | inr e => inr e
  | inl false => inr (SqlValueError ("Invalid Table name: " ++ table))
  | inl true =>
      match _is_valid_identifier schema with
      | inr e => inr e
      | inl false => inr (SqlValueError ("Invalid Schema name: " ++ schema))
      | inl true =>
          let sql := "SELECT " ++ columns ++ " FROM " ++ schema ++ "." ++ table in
          let sql :=
            match where_ with
            | Some w => if String.eqb w "" then sql else sql ++ " WHERE " ++ w
            | None => sql
            end in
          let sql :=
            match limit with
            | Some n => if n =? 0 then sql else sql ++ " LIMIT " ++ str_of_int n
            | None => sql
            end in
          let sql := sql ++ ";" in
          if is_safe sql then inl sql
          else inr (SqlValueError "Generated Sql query failed safety check.")
      end
  end.

End BuildSelect.

(** * Properties *)

(** ** hashlib.sha256 test vectors *)

Example sha256_abc :
  Sha256.hexdigest "abc"
  = "ba7816bf8f01cfea414140de5dae2223b00361a396177a9cb410ff61f20015ad".
Proof. vm_compute. reflexivity. Qed.

Example sha256_empty :
  Sha256.hexdigest ""
  = "e3b0c44298fc1c149afbf4c8996fb92427ae41e4649b934ca495991b7852b855".
Proof. vm_compute. reflexivity. Qed.

Example sha256_two_blocks :
  Sha256.hexdigest "aaaaaaaaaaaaaaaaaaaaaaaaaaaaaaaaaaaaaaaaaaaaaaaaaaaaaaaa"
  = "b35439a4ac6f0948b6d6f9e3c6af0f5f590ce20f1bde7090ef7970686ec6738a".
Proof. vm_compute. reflexivity. Qed.


(** ** generate_fingerprint *)

Lemma select_timestamp_falsy (data : observation) :
  no_timestamp data -> truthy (select_timestamp data) = false.
Proof.
  unfold no_timestamp, time_fields, select_timestamp, py_or.
  intros H.
  repeat match goal with
         | H : Forall _ (_ :: _) |- _ => apply Forall_cons in H; destruct H as [? H]
         end.
  repeat match goal with
         | H : truthy ?v = false |- context [truthy ?v] => rewrite H
         end.
  reflexivity.
Qed.

Lemma get_same (d1 d2 : observation) (k : string) :
  d1 !! k = d2 !! k -> get d1 k = get d2 k.
Proof. unfold get. intros ->. reflexivity. Qed.

Lemma get_or_empty_same (d1 d2 : observation) (k : string) :
  d1 !! k = d2 !! k -> get_or_empty d1 k = get_or_empty d2 k.
Proof. unfold get_or_empty. intros ->. reflexivity. Qed.

Lemma same_identity_parts (d1 d2 : observation) :
  same_identity d1 d2 ->
  identity_parts d1 = identity_parts d2
  /\ disambiguator_parts d1 = disambiguator_parts d2.
Proof.
  unfold same_identity, identifying_fields. intros H.
  repeat match goal with
         | H : Forall _ (_ :: _) |- _ => apply Forall_cons in H; destruct H as [? H]
         end.
  unfold identity_parts, disambiguator_parts, optional_part.
  repeat match goal with
         | E : d1 !! ?k = d2 !! ?k |- _ =>
             rewrite (get_same d1 d2 k E) || rewrite (get_or_empty_same d1 d2 k E);
             try rewrite (get_or_empty_same d1 d2 k E); clear E
         end.
  split; reflexivity.
Qed.

(** Without a truthy timestamp the key has no time component. *)
Lemma key_string_no_timestamp (self : DeduplicationEngine) (now : datetime)
    (data : observation) (bucket_time : bool) :
  no_timestamp data ->
  key_string self now data bucket_time
  = Ok (join ":" (identity_parts data ++ disambiguator_parts data)).
Proof.
  intros H. unfold key_string, time_parts.
  rewrite (select_timestamp_falsy data H). reflexivity.
Qed.

(** C10. An observation with no truthy time field is hashed from its identity
    and disambiguating fields alone; two such observations that agree on those
    fields get the same fingerprint, whatever the engine's bucket setting, the
    time of the call and the [bucket_time] flag. *)
Theorem fingerprint_without_timestamp
    (self1 self2 : DeduplicationEngine) (now1 now2 : datetime)
    (d1 d2 : observation) (bt1 bt2 : bool) :
  no_timestamp d1 -> no_timestamp d2 -> same_identity d1 d2 ->
  generate_fingerprint self1 now1 d1 bt1
  = Ok (Sha256.hexdigest (join ":" (identity_parts d1 ++ disambiguator_parts d1)))
  /\ generate_fingerprint self2 now2 d2 bt2 = generate_fingerprint self1 now1 d1 bt1.
Proof.
  intros H1 H2 Hs. unfold generate_fingerprint.
  rewrite !key_string_no_timestamp by assumption.
  destruct (same_identity_parts d1 d2 Hs) as [-> ->].
  split; reflexivity.
Qed.

Lemma fingerprint_without_timestamp_witness :
  let d1 : observation :=
    <["db_id" := VStr "db1"]> (<["event_type" := VStr "health"]>
      (<["index_name" := VStr "idx_orders"]> ∅)) in
  let d2 : observation := <["timestamp" := VStr ""]> (<["cpu" := VInt 93]> d1) in
  generate_fingerprint init_engine noon d1 true
  = Ok (Sha256.hexdigest (join ":" (identity_parts d1 ++ disambiguator_parts d1)))
  /\ generate_fingerprint engine5 (Datetime 2025 6 30 23 59 59 0 None) d2 false
     = generate_fingerprint init_engine noon d1 true.
Proof.
  intros d1 d2.
  apply fingerprint_without_timestamp;
    repeat (constructor; [vm_compute; reflexivity |]); constructor.
Defined.

(** C1. On the engine as [__init__] builds it, [bucket_minutes] is the tuple
    [(5,)], and bucketing the timestamp of the scenario's observation raises
    [TypeError] where a fingerprint was to be returned. *)
Theorem fingerprint_fresh_engine_raises :
  bucket_minutes init_engine = BucketTuple 5
  /\ generate_fingerprint init_engine noon (slow_query "2024-01-01T10:03:30Z") true
     = Raise (TypeError "unsupported operand type(s) for //: 'int' and 'tuple'")
  /\ generate_fingerprint init_engine noon (slow_query "2024-01-01T10:04:50Z") true
     = Raise (TypeError "unsupported operand type(s) for //: 'int' and 'tuple'").
Proof. repeat split; vm_compute; reflexivity. Qed.

(** On a fresh engine no timestamp can be bucketed at all. *)
Lemma bucket_timestamp_fresh_engine (now : datetime) (timestamp : value) :
  is_ok (_bucket_timestamp init_engine now timestamp) = false.
Proof.
  unfold _bucket_timestamp.
  destruct timestamp as [| b | n | s | d | ty tr tx]; try reflexivity.
  destruct (fromisoformat _); reflexivity.
Qed.

Lemma fingerprint_fresh_engine_never_buckets (now : datetime) (data : observation) :
  truthy (select_timestamp data) = true ->
  is_ok (generate_fingerprint init_engine now data true) = false.
Proof.
  intros H. unfold generate_fingerprint, key_string, time_parts. rewrite H.
  pose proof (bucket_timestamp_fresh_engine now (select_timestamp data)) as Hb.
  destruct (_bucket_timestamp init_engine now (select_timestamp data));
    [discriminate | reflexivity].
Qed.




(** C2, as stated, fails: with the width set to 5 the bucketed text of
    ["2024-01-01T10:03:30Z"] carries the UTC offset, so it is not
    ["2024-01-01T10:00:00"], and the fingerprint is not the digest of the key
    built from that text. *)
Lemma slow_query_scenario_counterexample :
  set_bucket_interval init_engine 5 = Ok engine5
  /\ _bucket_timestamp engine5 noon (VStr "2024-01-01T10:03:30Z")
     <> Ok "2024-01-01T10:00:00"
  /\ generate_fingerprint engine5 noon (slow_query "2024-01-01T10:03:30Z") true
     <> Ok (Sha256.hexdigest "db1:orders:slow_query:2024-01-01T10:00:00:abc123").
Proof.
  split; [reflexivity |].
  split; vm_compute; discriminate.
Qed.

(** C2, amended. After [set_bucket_interval(5)] the scenario's observation is
    bucketed to ["2024-01-01T10:00:00+00:00"], its fingerprint is the digest of
    ["db1:orders:slow_query:2024-01-01T10:00:00+00:00:abc123"], the observation
    at 10:04:50Z gets the same fingerprint and the one at 10:05:01Z another. *)
Theorem slow_query_scenario (now : datetime) :
  set_bucket_interval init_engine 5 = Ok engine5
  /\ _bucket_timestamp engine5 now (VStr "2024-01-01T10:03:30Z")
     = Ok "2024-01-01T10:00:00+00:00"
  /\ generate_fingerprint engine5 now (slow_query "2024-01-01T10:03:30Z") true
     = Ok (Sha256.hexdigest "db1:orders:slow_query:2024-01-01T10:00:00+00:00:abc123")
  /\ generate_fingerprint engine5 now (slow_query "2024-01-01T10:04:50Z") true
     = generate_fingerprint engine5 now (slow_query "2024-01-01T10:03:30Z") true
  /\ generate_fingerprint engine5 now (slow_query "2024-01-01T10:05:01Z") true
     <> generate_fingerprint engine5 now (slow_query "2024-01-01T10:03:30Z") true.
Proof.
  split; [reflexivity |].
  split; [vm_compute; reflexivity |].
  split; [vm_compute; reflexivity |].
  split; [vm_compute; reflexivity |].
  vm_compute. discriminate.
Qed.





(** ** The fingerprint cache *)

Lemma timedelta_seconds_small (a b : datetime) (ttl : Z) :
  0 <= micros a - micros b < ttl * 1000000 ->
  timedelta_seconds a b < ttl.
Proof.
  intros [Hlo Hhi]. unfold timedelta_seconds.
  assert (0 <= (micros a - micros b) / 1000000) by (apply Z.div_pos; lia).
  assert ((micros a - micros b) / 1000000 < ttl)
    by (apply Z.div_lt_upper_bound; lia).
  pose proof (Z.mod_le ((micros a - micros b) / 1000000) 86400). lia.
Qed.

(** Inside one day [.seconds] is the whole age. *)
Lemma timedelta_seconds_within_day (a b : datetime) :
  0 <= micros a - micros b < 86400 * 1000000 ->
  timedelta_seconds a b = timedelta_total_seconds a b.
Proof.
  intros [Hlo Hhi]. unfold timedelta_seconds, timedelta_total_seconds.
  apply Z.mod_small. split.
  - apply Z.div_pos; lia.
  - apply Z.div_lt_upper_bound; lia.
Qed.

(** First tier: an entry whose [.seconds] age is below the TTL answers, and
    the store is not asked. *)
Lemma alread_exists_hit (self : DeduplicationEngine) (w : World)
    (fingerprint hypertable : string) (lookback_hours : Z)
    (cache_time : datetime) (verdict : bool) :
  cache self !! cache_key hypertable fingerprint = Some (cache_time, verdict) ->
  timedelta_seconds (clock w (reads w)) cache_time < cache_ttl self ->
  exists w',
    alread_exists self w fingerprint hypertable lookback_hours = (verdict, self, w')
    /\ queries w' = queries w.
Proof.
  intros Hc Hfresh. unfold alread_exists. rewrite Hc. cbn [utcnow].
  apply Z.ltb_lt in Hfresh. rewrite Hfresh.
  eexists. split; reflexivity.
Qed.

(** Second tier, the store answering: one query, over the hypertable's time
    column and the lookback window; the answer is cached and returned. *)
Lemma query_oracle_answer (self : DeduplicationEngine) (w : World)
    (fingerprint hypertable : string) (lookback_hours : Z) (verdict : bool) :
  oracle w (length (queries w)) (existence_query hypertable lookback_hours) fingerprint
  = Ok verdict ->
  exists self' w',
    query_oracle self w fingerprint hypertable lookback_hours = (verdict, self', w')
    /\ queries w' = (queries w ++ [(existence_query hypertable lookback_hours, fingerprint)])%list
    /\ cache self' = <[cache_key hypertable fingerprint := (clock w (reads w), verdict)]> (cache self).
Proof.
  intros Ho. unfold query_oracle, fetchval_ts_db. rewrite Ho. cbn.
  do 2 eexists. repeat split; reflexivity.
Qed.

Lemma alread_exists_absent (self : DeduplicationEngine) (w : World)
    (fingerprint hypertable : string) (lookback_hours : Z) (verdict : bool) :
  cache self !! cache_key hypertable fingerprint = None ->
  oracle w (length (queries w)) (existence_query hypertable lookback_hours) fingerprint
  = Ok verdict ->
  exists self' w',
    alread_exists self w fingerprint hypertable lookback_hours = (verdict, self', w')
    /\ queries w' = (queries w ++ [(existence_query hypertable lookback_hours, fingerprint)])%list
    /\ cache self' = <[cache_key hypertable fingerprint := (clock w (reads w), verdict)]> (cache self).
Proof.
  intros Hc Ho. unfold alread_exists. rewrite Hc.
  apply query_oracle_answer. exact Ho.
Qed.

Lemma alread_exists_expired (self : DeduplicationEngine) (w : World)
    (fingerprint hypertable : string) (lookback_hours : Z)
    (cache_time : datetime) (old verdict : bool) :
  cache self !! cache_key hypertable fingerprint = Some (cache_time, old) ->
  cache_ttl self <= timedelta_seconds (clock w (reads w)) cache_time ->
  oracle w (length (queries w)) (existence_query hypertable lookback_hours) fingerprint
  = Ok verdict ->
  exists self' w',
    alread_exists self w fingerprint hypertable lookback_hours = (verdict, self', w')
    /\ queries w' = (queries w ++ [(existence_query hypertable lookback_hours, fingerprint)])%list
    /\ cache self'
       = <[cache_key hypertable fingerprint := (clock w (S (reads w)), verdict)]> (cache self).
Proof.
  intros Hc Hold Ho. unfold alread_exists. rewrite Hc. cbn [utcnow].
  apply Z.ltb_ge in Hold. rewrite Hold.
  apply (query_oracle_answer self
           (MkWorld (clock w) (S (reads w)) (oracle w) (queries w) (log w))).
  exact Ho.
Qed.

Lemma time_column_examples :
  _get_time_column "query_performance" = "executed_at"
  /\ _get_time_column "schema_metadata" = "captured_at"
  /\ _get_time_column "semantic_relationships" = "discovered_at"
  /\ _get_time_column "no_such_table" = "timestamp".
Proof. repeat split; reflexivity. Qed.

(** C3. An entry recorded one day and ten seconds ago is far older than the
    TTL of 3600 seconds, yet its [.seconds] age is 10: [alread_exists] returns
    the cached verdict and does not ask the store, which would have answered
    [False]. *)
Theorem alread_exists_serves_day_old_entry :
  let cache_time := Datetime 2024 1 1 10 0 0 0 None in
  let now := Datetime 2024 1 2 10 0 10 0 None in
  let self := engine_with_entry cache_time in
  let w := still_world now (Ok false) in
  timedelta_total_seconds now cache_time = 86410
  /\ cache_ttl self = 3600
  /\ fst (fst (alread_exists self w sample_fingerprint "query_performance" 1)) = true
  /\ queries (snd (alread_exists self w sample_fingerprint "query_performance" 1)) = [].
Proof. repeat split; vm_compute; reflexivity. Qed.

(** C4. [mark_inserted] followed by [alread_exists] for the same fingerprint
    and hypertable, the second clock reading being less than the TTL after the
    first: the answer is [True], the engine is left as [mark_inserted] left it
    and no query is issued. *)
Theorem mark_inserted_then_alread_exists (self : DeduplicationEngine) (w : World)
    (fingerprint hypertable : string) (lookback_hours : Z) :
  0 <= micros (clock w (S (reads w))) - micros (clock w (reads w))
    < cache_ttl self * 1000000 ->
  exists w',
    alread_exists (fst (mark_inserted self w fingerprint hypertable))
                  (snd (mark_inserted self w fingerprint hypertable))
                  fingerprint hypertable lookback_hours
    = (true, fst (mark_inserted self w fingerprint hypertable), w')
    /\ queries w' = queries w.
Proof.
  intros Hd. unfold mark_inserted. cbn [utcnow fst snd].
  match goal with
  | |- exists w', alread_exists ?s1 ?w1 _ _ _ = _ /\ _ =>
      destruct (alread_exists_hit s1 w1 fingerprint hypertable lookback_hours
                  (clock w (reads w)) true) as (w' & Hr & Hq)
  end.
  - cbn [cache set_cache]. apply lookup_insert_eq.
  - cbn [logger clock reads cache_ttl set_cache].
    apply timedelta_seconds_small. exact Hd.
  - exists w'. split; [exact Hr | exact Hq].
Qed.

Lemma mark_inserted_then_alread_exists_witness :
  let self := init_engine in
  let w := still_world noon (Raise (TransportError "connection refused")) in
  exists w',
    alread_exists (fst (mark_inserted self w sample_fingerprint "query_performance"))
                  (snd (mark_inserted self w sample_fingerprint "query_performance"))
                  sample_fingerprint "query_performance" 1
    = (true, fst (mark_inserted self w sample_fingerprint "query_performance"), w')
    /\ queries w' = queries w.
Proof.
  intros self w. apply mark_inserted_then_alread_exists.
  vm_compute. split; [discriminate | reflexivity].
Defined.

(** C6. When [alread_exists] asks the store and the store raises, the answer
    is [False] and the engine, its cache included, is as before the call. *)
Theorem alread_exists_oracle_failure (self : DeduplicationEngine) (w : World)
    (fingerprint hypertable : string) (lookback_hours : Z) (e : exn) :
  queries (snd (alread_exists self w fingerprint hypertable lookback_hours))
    <> queries w ->
  oracle w (length (queries w)) (existence_query hypertable lookback_hours) fingerprint
    = Raise e ->
  fst (alread_exists self w fingerprint hypertable lookback_hours) = (false, self).
Proof.
  intros Hq Ho.
  assert (forall w0, queries w0 = queries w -> oracle w0 = oracle w ->
            fst (query_oracle self w0 fingerprint hypertable lookback_hours)
            = (false, self)) as Hmiss.
  { intros w0 Eq Eo. unfold query_oracle, fetchval_ts_db. rewrite Eq, Eo, Ho.
    reflexivity. }
  unfold alread_exists in *.
  destruct (cache self !! cache_key hypertable fingerprint) as [[cache_time old] |].
  - cbn [utcnow] in *.
    destruct (timedelta_seconds (clock w (reads w)) cache_time <? cache_ttl self).
    + exfalso. apply Hq. reflexivity.
    + apply Hmiss; reflexivity.
  - apply Hmiss; reflexivity.
Qed.

Lemma alread_exists_oracle_failure_witness :
  let w := still_world noon (Raise (TransportError "connection refused")) in
  fst (alread_exists init_engine w sample_fingerprint "query_performance" 1)
  = (false, init_engine).
Proof.
  intros w.
  apply (alread_exists_oracle_failure init_engine w sample_fingerprint
           "query_performance" 1 (TransportError "connection refused")).
  - vm_compute. discriminate.
  - reflexivity.
Defined.

(** After a failed query for an absent key the next call asks again. *)
Lemma alread_exists_failure_is_not_cached (self : DeduplicationEngine) (w : World)
    (fingerprint hypertable : string) (lookback_hours : Z) (e1 : exn) :
  cache self !! cache_key hypertable fingerprint = None ->
  oracle w (length (queries w)) (existence_query hypertable lookback_hours) fingerprint
    = Raise e1 ->
  let '(_, self1, w1) := alread_exists self w fingerprint hypertable lookback_hours in
  let '(_, _, w2) := alread_exists self1 w1 fingerprint hypertable lookback_hours in
  queries w2
  = (queries w ++ [(existence_query hypertable lookback_hours, fingerprint);
                   (existence_query hypertable lookback_hours, fingerprint)])%list.
Proof.
  intros Hc Ho. unfold alread_exists. rewrite Hc.
  unfold query_oracle, fetchval_ts_db. rewrite Ho, Hc.
  cbn [logger oracle queries clock reads log].
  match goal with
  | |- context [match ?r with Ok _ => _ | Raise _ => _ end] => destruct r
  end; cbn; rewrite <- app_assoc; reflexivity.
Qed.

(** ** EventRouter *)

(** C5. With two subscribed channels [start_listening] reaches its wait loop
    after the first [listen_channel]: when it suspends, only
    [monitoring_events] has a listener and [performance_events] is still to
    come. *)
Theorem start_listening_waits_after_first_channel :
  get_active_channels (router idle_router) = ["monitoring_events"; "performance_events"]
  /\ fst (start_listening reliable idle_router) = Ok (Sleeping ["performance_events"])
  /\ listeners (db (router (snd (start_listening reliable idle_router))))
       !! "monitoring_events" = Some 0%nat
  /\ listeners (db (router (snd (start_listening reliable idle_router))))
       !! "performance_events" = None
  /\ ops (snd (start_listening reliable idle_router))
     = [Acquire 0%nat; AddListener "monitoring_events" 0%nat].
Proof. repeat split; vm_compute; reflexivity. Qed.

(** While [running] holds, waking up changes nothing: the second channel is
    not listened on however long the router waits. *)
Lemma resume_keeps_waiting (t : Transport) (rest : list string) (s : Sys) :
  running (router s) = true -> resume t rest s = (Ok (Sleeping rest), s).
Proof.
  intros H. unfold resume, guarded, get_running, gets, mbind, M_bind, bind.
  rewrite H. reflexivity.
Qed.

(** The second channel is listened on only once [stop] has been called, and
    the [cleanup] of that run hands back neither connection. *)
Lemma second_channel_after_stop :
  let s1 := snd (start_listening reliable idle_router) in
  let s2 := snd (stop s1) in
  fst (resume reliable ["performance_events"] s2) = Ok Finished
  /\ ops (snd (resume reliable ["performance_events"] s2))
     = [ Acquire 0%nat; AddListener "monitoring_events" 0%nat;
         Acquire 1%nat; AddListener "performance_events" 1%nat ].
Proof. split; vm_compute; reflexivity. Qed.

(** What [unlisten_channel] does: it never raises, and it changes nothing but
    the log.  On a channel that has a listener the [TypeError] of
    [remove_listener] is caught and logged; the connection is not handed back
    and the entry is not deleted. *)
Lemma unlisten_channel_cases (c : string) (s : Sys) :
  unlisten_channel c s
  = (Ok tt,
     MkSys (router s) (ops s)
           (out s ++ [ match listeners (db (router s)) !! c with
                       | None => (Log WARNING, "Not listening on channel: " ++ c)
                       | Some _ => unlisten_error_line c
                       end ])).
Proof.
  unfold unlisten_channel, gets, mbind, M_bind, bind.
  destruct (listeners (db (router s)) !! c) as [conn |]; reflexivity.
Qed.

Lemma unlisten_all_cons (c : string) (rest : list string) (s : Sys) :
  unlisten_all (c :: rest) s = unlisten_all rest (snd (unlisten_channel c s)).
Proof.
  cbn [unlisten_all]. unfold mbind, M_bind, bind.
  rewrite unlisten_channel_cases. reflexivity.
Qed.

Lemma unlisten_all_ok (channels : list string) :
  forall s, fst (unlisten_all channels s) = Ok tt.
Proof.
  induction channels as [| c rest IH]; intros s; [reflexivity |].
  rewrite unlisten_all_cons. apply IH.
Qed.

(** The loop of [cleanup] leaves the router and the transport alone, and
    only adds to the log. *)
Lemma unlisten_all_leaves (channels : list string) :
  forall s,
    router (snd (unlisten_all channels s)) = router s
    /\ ops (snd (unlisten_all channels s)) = ops s
    /\ (forall l, l ∈ out s -> l ∈ out (snd (unlisten_all channels s))).
Proof.
  induction channels as [| c rest IH]; intros s; [repeat split; auto |].
  rewrite unlisten_all_cons, unlisten_channel_cases. cbn [snd].
  match goal with
  | |- context [unlisten_all rest ?s1] => destruct (IH s1) as (Hr & Ho & Hl)
  end.
  cbn [router ops out] in Hr, Ho, Hl.
  repeat split; [exact Hr | exact Ho |].
  intros l Hin. apply Hl, elem_of_app. left. exact Hin.
Qed.

(** The loop reaches every channel of its list: each one that has a listener
    gets its own failure logged, whatever happened to the channels before
    it. *)
Lemma unlisten_all_each (ch : string) (conn : connection) (channels : list string) :
  forall s,
    ch ∈ channels ->
    listeners (db (router s)) !! ch = Some conn ->
    unlisten_error_line ch ∈ out (snd (unlisten_all channels s)).
Proof.
  induction channels as [| c rest IH]; intros s Hin Hl.
  - apply elem_of_nil in Hin. contradiction.
  - rewrite unlisten_all_cons.
    destruct (decide (c = ch)) as [-> | Hne].
    + apply unlisten_all_leaves. rewrite unlisten_channel_cases. cbn [snd out].
      rewrite Hl. apply elem_of_app. right. apply list_elem_of_singleton. reflexivity.
    + apply IH.
      * apply elem_of_cons in Hin. destruct Hin as [-> | Hin]; [contradiction | exact Hin].
      * rewrite unlisten_channel_cases. exact Hl.
Qed.

Lemma cleanup_unfold (s : Sys) :
  cleanup s
  = (Ok tt,
     let s' := snd (unlisten_all (get_active_channels (router s)) s) in
     MkSys (router s') (ops s') (out s' ++ [(Log INFO, "EventRouter cleanup complete")])).
Proof.
  unfold cleanup, try_except, gets, mbind, M_bind, bind.
  pose proof (unlisten_all_ok (get_active_channels (router s)) s) as Hok.
  destruct (unlisten_all (get_active_channels (router s)) s) as [r s'].
  cbn [fst] in Hok. subst r. reflexivity.
Qed.

(** [cleanup] never raises. *)
Lemma cleanup_ok (s : Sys) : fst (cleanup s) = Ok tt.
Proof. rewrite cleanup_unfold. reflexivity. Qed.

(** [cleanup] changes neither the router nor the transport calls. *)
Lemma cleanup_leaves (s : Sys) :
  router (snd (cleanup s)) = router s /\ ops (snd (cleanup s)) = ops s.
Proof.
  rewrite cleanup_unfold. cbn [snd router ops].
  destruct (unlisten_all_leaves (get_active_channels (router s)) s) as (Hr & Ho & _).
  split; assumption.
Qed.

(** C8. The claim fails in the program: [cleanup] releases nothing.  For
    every subscribed channel that has a listener, [unlisten_channel] stops at
    [conn.remove_listener(channel)], which raises [TypeError] for its missing
    [callback] argument; the handler logs it, so [cleanup] returns normally
    and goes on to the next channel, but the connection is never handed back
    to the pool (no transport call is made at all) and the channel keeps its
    entry and its connection in [listeners]. *)
Theorem cleanup_releases_nothing (s : Sys) (channel : string) (conn : connection) :
  channel ∈ get_active_channels (router s) ->
  listeners (db (router s)) !! channel = Some conn ->
  fst (cleanup s) = Ok tt
  /\ listeners (db (router (snd (cleanup s)))) !! channel = Some conn
  /\ ops (snd (cleanup s)) = ops s
  /\ unlisten_error_line channel ∈ out (snd (cleanup s)).
Proof.
  intros Hin Hl. destruct (cleanup_leaves s) as [Hr Ho].
  repeat split; [apply cleanup_ok | rewrite Hr; exact Hl | exact Ho |].
  rewrite cleanup_unfold. cbn [snd out]. apply elem_of_app. left.
  apply (unlisten_all_each channel conn _ s Hin Hl).
Qed.

Lemma cleanup_releases_nothing_witness :
  fst (cleanup listening_router) = Ok tt
  /\ listeners (db (router (snd (cleanup listening_router)))) !! "performance_events"
     = Some 1%nat
  /\ ops (snd (cleanup listening_router)) = ops listening_router
  /\ unlisten_error_line "performance_events" ∈ out (snd (cleanup listening_router)).
Proof.
  apply cleanup_releases_nothing.
  - unfold listening_router, get_active_channels, two_channels. cbn.
    apply elem_of_cons. right. apply elem_of_cons. left. reflexivity.
  - vm_compute. reflexivity.
Defined.

(** On the router that listens on both of its channels, [cleanup] makes no
    transport call, and its log is one [TypeError] per channel followed by
    the line that reports the cleanup as complete. *)
Lemma cleanup_listening_router :
  ops (snd (cleanup listening_router)) = []
  /\ out (snd (cleanup listening_router))
     = [ unlisten_error_line "monitoring_events";
         unlisten_error_line "performance_events";
         (Log INFO, "EventRouter cleanup complete") ]
  /\ snd (unlisten_error_line "monitoring_events")
     = "Error unlistening from monitoring_events: Connection.remove_listener() missing 1 required positional argument: 'callback'".
Proof. repeat split; vm_compute; reflexivity. Qed.

(** A failing [listen_channel] stops the router: [running] is cleared,
    [cleanup] runs and the exception reaches the caller. *)
Lemma start_listening_listen_failure (t : Transport) (s : Sys)
    (channel : string) (cbs : list callback)
    (rest : list (string * list callback)) (e : exn) :
  running (router s) = false ->
  subscribers (router s) = (channel, cbs) :: rest ->
  listeners (db (router s)) !! channel = None ->
  acquire_fails t channel = Some e ->
  exists s0,
    start_listening t s = (Raise e, snd (cleanup s0))
    /\ running (router s0) = false.
Proof.
  intros Hr Hs Hl Ha.
  unfold start_listening, guarded, get_running, get_active_channels, gets,
    mbind, M_bind, bind.
  rewrite Hr. cbn [set_running modify router subscribers]. rewrite Hs.
  cbn [map fst listen_loop].
  unfold listen_channel, gets, mbind, M_bind, bind.
  cbn [router db listeners]. rewrite Hl.
  unfold try_except, pool_acquire, transport_call, gets, mbind, M_bind, bind.
  rewrite Ha. cbn.
  match goal with
  | |- context [cleanup ?s0] =>
      exists s0; rewrite (cleanup_unfold s0)
  end.
  split; reflexivity.
Qed.

(** [notify] writes nothing when it raises. *)
Lemma notify_failure_silent (t : Transport) (channel payload : string) (s : Sys)
    (e : exn) :
  fst (notify t channel payload s) = Raise e ->
  out (snd (notify t channel payload s)) = out s.
Proof.
  unfold notify, pool_acquire, try_except, transport_call, gets, mbind, M_bind, bind.
  destruct (acquire_fails t channel) as [e1 |]; [reflexivity |].
  cbn. destruct (execute_fails t channel payload) as [e2 |]; [reflexivity |].
  cbn. discriminate.
Qed.

(** C7, as stated, fails: [pg_notify] raises inside [notify], and [emit]
    returns normally. *)
Lemma emit_swallows_failure_counterexample :
  fst (notify notify_down "monitoring_events" "{}" idle_router)
  = Raise (TransportError "connection is closed")
  /\ fst (emit (fun _ => Ok "{}") notify_down "monitoring_events" ∅ idle_router)
     = Ok tt.
Proof. split; vm_compute; reflexivity. Qed.

(** [emit] returns normally whatever [json.dumps] and the transport do. *)
Lemma emit_never_raises (json_dumps : observation -> result string) (t : Transport)
    (channel : string) (data : observation) (s : Sys) :
  fst (emit json_dumps t channel data s) = Ok tt.
Proof.
  unfold emit, try_except, mbind, M_bind, bind.
  destruct (lift (json_dumps data) s) as [[payload | e] s1]; [| reflexivity].
  destruct (notify t channel payload s1) as [[u | e] s2]; [| reflexivity].
  cbn. destruct u. reflexivity.
Qed.

(** C7, amended. When the publish inside [emit] raises, [emit] writes the
    failure to the log and to the standard output and returns normally: the
    caller does not see the exception. *)
Theorem emit_logs_failure_and_returns (json_dumps : observation -> result string)
    (t : Transport) (channel : string) (data : observation) (s : Sys)
    (payload : string) (e : exn) :
  json_dumps data = Ok payload ->
  fst (notify t channel payload s) = Raise e ->
  fst (emit json_dumps t channel data s) = Ok tt
  /\ out (snd (emit json_dumps t channel data s))
     = (out s
        ++ [ (Log ERROR, ("❌ failed to emit event on " ++ channel ++ ": " ++ exn_str e)%string);
             (Stdout, ("❌ failed to emit event: " ++ exn_str e)%string) ])%list.
Proof.
  intros Hj Hn. split; [apply emit_never_raises |].
  pose proof (notify_failure_silent t channel payload s e Hn) as Hout.
  unfold emit, try_except, mbind, M_bind, bind.
  rewrite Hj. cbn [lift ret].
  destruct (notify t channel payload s) as [[u | e'] s2].
  - discriminate Hn.
  - cbn [fst snd] in Hn, Hout. injection Hn as ->.
    cbn. rewrite Hout. rewrite <- app_assoc. reflexivity.
Qed.

Lemma emit_logs_failure_and_returns_witness :
  fst (emit (fun _ => Ok "{}") notify_down "monitoring_events" ∅ idle_router) = Ok tt
  /\ out (snd (emit (fun _ => Ok "{}") notify_down "monitoring_events" ∅ idle_router))
     = (out idle_router
        ++ [ (Log ERROR, ("❌ failed to emit event on " ++ "monitoring_events" ++ ": "
                          ++ exn_str (TransportError "connection is closed"))%string);
             (Stdout, ("❌ failed to emit event: "
                       ++ exn_str (TransportError "connection is closed"))%string) ])%list.
Proof.
  apply (emit_logs_failure_and_returns (fun _ => Ok "{}") notify_down
           "monitoring_events" ∅ idle_router "{}"
           (TransportError "connection is closed")).
  - reflexivity.
  - vm_compute. reflexivity.
Defined.

(** ** Bucketing with a configured width *)















(** ** What the colon-joined key does not tell apart *)

Lemma get_insert_eq (o : observation) (k : string) (v : value) :
  get (<[k := v]> o) k = v.
Proof. unfold get. rewrite lookup_insert_eq. reflexivity. Qed.

Lemma get_insert_ne (o : observation) (k k' : string) (v : value) :
  k <> k' -> get (<[k := v]> o) k' = get o k'.
Proof. intros H. unfold get. rewrite lookup_insert_ne by exact H. reflexivity. Qed.

Lemma get_or_empty_insert_eq (o : observation) (k : string) (v : value) :
  get_or_empty (<[k := v]> o) k = v.
Proof. unfold get_or_empty. rewrite lookup_insert_eq. reflexivity. Qed.

Lemma get_or_empty_insert_ne (o : observation) (k k' : string) (v : value) :
  k <> k' -> get_or_empty (<[k := v]> o) k' = get_or_empty o k'.
Proof. intros H. unfold get_or_empty. rewrite lookup_insert_ne by exact H. reflexivity. Qed.

Lemma string_app_assoc (a b c : string) : ((a ++ b) ++ c = a ++ (b ++ c))%string.
Proof.
  induction a as [| x a IH]; [reflexivity |].
  change (String x ((a ++ b) ++ c) = String x (a ++ (b ++ c)))%string.
  f_equal. exact IH.
Qed.

Ltac insert_lookups :=
  repeat first
    [ rewrite get_insert_eq
    | rewrite get_or_empty_insert_eq
    | rewrite get_insert_ne by discriminate
    | rewrite get_or_empty_insert_ne by discriminate ].

(** X4. The key is the plain colon-join of its parts, so a colon inside a
    field moves the field boundary unnoticed: an observation with [db_id]
    ["a:b"] and [table_name] ["c"] gets the fingerprint of the one with
    [db_id] ["a"] and [table_name] ["b:c"], all other fields being equal. *)
Theorem fingerprint_field_boundary_collision (self : DeduplicationEngine)
    (now : datetime) (o : observation) (a b c : string) (bucket_time : bool) :
  generate_fingerprint self now
    (<["db_id" := VStr (a ++ ":" ++ b)]> (<["table_name" := VStr c]> o)) bucket_time
  = generate_fingerprint self now
      (<["db_id" := VStr a]> (<["table_name" := VStr (b ++ ":" ++ c)]> o)) bucket_time.
Proof.
  unfold generate_fingerprint, key_string, time_parts, select_timestamp,
    identity_parts, disambiguator_parts, optional_part.
  insert_lookups.
  destruct (truthy _); [destruct bucket_time; [destruct (_bucket_timestamp _ _ _) |] |];
    try reflexivity; cbn [join app py_str];
    rewrite !string_app_assoc; reflexivity.
Qed.

(** X5. The disambiguating values enter the key without their field names:
    an observation that has the value as its [query_hash] and one that has it
    as its [index_name] get the same fingerprint. *)
Theorem fingerprint_disambiguator_unlabelled (self : DeduplicationEngine)
    (now : datetime) (o : observation) (v : value) (bucket_time : bool) :
  o !! "query_hash" = None -> o !! "index_name" = None ->
  generate_fingerprint self now (<["query_hash" := v]> o) bucket_time
  = generate_fingerprint self now (<["index_name" := v]> o) bucket_time.
Proof.
  intros Hq Hi.
  unfold generate_fingerprint, key_string, time_parts, select_timestamp,
    identity_parts, disambiguator_parts, optional_part.
  insert_lookups.
  assert (get o "query_hash" = VNone) as -> by (unfold get; rewrite Hq; reflexivity).
  assert (get o "index_name" = VNone) as -> by (unfold get; rewrite Hi; reflexivity).
  cbn [truthy]. destruct (truthy v); reflexivity.
Qed.

Lemma fingerprint_disambiguator_unlabelled_witness :
  let o : observation :=
    <["db_id" := VStr "db1"]> (<["table_name" := VStr "orders"]>
      (<["event_type" := VStr "stats"]>
         (<["measured_at" := VDatetime (Datetime 2024 5 17 8 42 0 0 None)]> ∅))) in
  generate_fingerprint engine5 noon (<["query_hash" := VStr "orders_pkey"]> o) true
  = generate_fingerprint engine5 noon (<["index_name" := VStr "orders_pkey"]> o) true.
Proof.
  intros o. apply fingerprint_disambiguator_unlabelled; vm_compute; reflexivity.
Defined.

(** ** Sweeping and clearing the cache *)

(** The answer and the queries of the second tier depend on the store alone. *)
Lemma query_oracle_verdict (self : DeduplicationEngine) (w : World)
    (fingerprint hypertable : string) (lookback_hours : Z) :
  fst (fst (query_oracle self w fingerprint hypertable lookback_hours))
  = match oracle w (length (queries w)) (existence_query hypertable lookback_hours)
            fingerprint with
    | Ok verdict => verdict
    | Raise _ => false
    end
  /\ queries (snd (query_oracle self w fingerprint hypertable lookback_hours))
     = (queries w ++ [(existence_query hypertable lookback_hours, fingerprint)])%list.
Proof.
  unfold query_oracle, fetchval_ts_db.
  destruct (oracle w _ _ _); split; reflexivity.
Qed.

Lemma cleanup_old_cache_world (self : DeduplicationEngine) (w : World) :
  clock (snd (cleanup_old_cache self w)) = clock w
  /\ reads (snd (cleanup_old_cache self w)) = S (reads w)
  /\ oracle (snd (cleanup_old_cache self w)) = oracle w
  /\ queries (snd (cleanup_old_cache self w)) = queries w.
Proof.
  unfold cleanup_old_cache. cbn [utcnow snd].
  destruct (decide (_ = ∅)); repeat split; reflexivity.
Qed.

(** What [cleanup_old_cache] keeps: the entries whose [.seconds] age is at most
    the TTL, with their verdicts. *)
Lemma cleanup_old_cache_lookup (self : DeduplicationEngine) (w : World)
    (k : string) (entry : datetime * bool) :
  cache (fst (cleanup_old_cache self w)) !! k = Some entry
  <-> cache self !! k = Some entry
      /\ timedelta_seconds (clock w (reads w)) (fst entry) <= cache_ttl self.
Proof.
  unfold cleanup_old_cache. cbn [utcnow fst set_cache cache].
  rewrite map_lookup_filter_Some. cbn [fst snd]. split.
  - intros [H1 H2]. split; [exact H1 | lia].
  - intros [H1 H2]. split; [exact H1 | lia].
Qed.

(** X6. Sweeping is not observable through [alread_exists]: when no time
    passes between the two clock readings, [cleanup_old_cache] followed by
    [alread_exists] gives the verdict and issues the queries that
    [alread_exists] alone would have.  The entries swept are entries that
    would not have been served. *)
Theorem cleanup_old_cache_transparent (self : DeduplicationEngine) (w : World)
    (fingerprint hypertable : string) (lookback_hours : Z) :
  clock w (S (reads w)) = clock w (reads w) ->
  let self' := fst (cleanup_old_cache self w) in
  let w' := snd (cleanup_old_cache self w) in
  fst (fst (alread_exists self' w' fingerprint hypertable lookback_hours))
  = fst (fst (alread_exists self w' fingerprint hypertable lookback_hours))
  /\ queries (snd (alread_exists self' w' fingerprint hypertable lookback_hours))
     = queries (snd (alread_exists self w' fingerprint hypertable lookback_hours)).
Proof.
  intros Hclock.
  destruct (cleanup_old_cache_world self w) as (Hc & Hr & Ho & Hq).
  pose proof (cleanup_old_cache_lookup self w) as cleanup_lookup.
  assert (cache_ttl (fst (cleanup_old_cache self w)) = cache_ttl self) as Httl
    by reflexivity.
  cbv zeta. destruct (cleanup_old_cache self w) as [self' w'].
  cbn [fst snd] in Hc, Hr, Ho, Hq, cleanup_lookup, Httl |- *.
  destruct w' as [c r o q l]. cbn [clock reads oracle queries] in Hc, Hr, Ho, Hq.
  subst c r o q.
  assert (forall s1 s2 w1 w2,
            oracle w1 = oracle w2 -> queries w1 = queries w2 ->
            fst (fst (query_oracle s1 w1 fingerprint hypertable lookback_hours))
            = fst (fst (query_oracle s2 w2 fingerprint hypertable lookback_hours))
            /\ queries (snd (query_oracle s1 w1 fingerprint hypertable lookback_hours))
               = queries (snd (query_oracle s2 w2 fingerprint hypertable lookback_hours)))
    as Hsame.
  { intros s1 s2 w1 w2 Eo Eq.
    destruct (query_oracle_verdict s1 w1 fingerprint hypertable lookback_hours) as [-> ->].
    destruct (query_oracle_verdict s2 w2 fingerprint hypertable lookback_hours) as [-> ->].
    rewrite Eo, Eq. split; reflexivity. }
  unfold alread_exists. rewrite Httl.
  destruct (cache self !! cache_key hypertable fingerprint) as [[t v] |] eqn:Hl.
  - cbn [utcnow clock reads]. rewrite Hclock.
    destruct (decide (timedelta_seconds (clock w (reads w)) t <= cache_ttl self))
      as [Hkeep | Hdrop].
    + assert (cache self' !! cache_key hypertable fingerprint = Some (t, v)) as ->
        by (apply cleanup_lookup; split; [exact Hl | exact Hkeep]).
      destruct (timedelta_seconds (clock w (reads w)) t <? cache_ttl self);
        [split; reflexivity | apply Hsame; reflexivity].
    + assert (cache self' !! cache_key hypertable fingerprint = None) as ->.
      { destruct (cache self' !! cache_key hypertable fingerprint) as [entry |] eqn:E;
          [| reflexivity].
        apply cleanup_lookup in E. destruct E as [E1 E2].
        rewrite Hl in E1. injection E1 as <-. contradiction. }
      replace (timedelta_seconds (clock w (reads w)) t <? cache_ttl self) with false
        by (symmetry; apply Z.ltb_ge; lia).
      apply Hsame; reflexivity.
  - assert (cache self' !! cache_key hypertable fingerprint = None) as ->.
    { destruct (cache self' !! cache_key hypertable fingerprint) as [entry |] eqn:E;
        [| reflexivity].
      apply cleanup_lookup in E. destruct E as [E1 _]. congruence. }
    apply Hsame; reflexivity.
Qed.

Lemma cleanup_old_cache_transparent_witness :
  let self := engine_with_entry (Datetime 2024 1 1 10 0 0 0 None) in
  let w := still_world (Datetime 2024 1 1 11 0 1 0 None) (Ok false) in
  let self' := fst (cleanup_old_cache self w) in
  let w' := snd (cleanup_old_cache self w) in
  fst (fst (alread_exists self' w' sample_fingerprint "query_performance" 1))
  = fst (fst (alread_exists self w' sample_fingerprint "query_performance" 1))
  /\ queries (snd (alread_exists self' w' sample_fingerprint "query_performance" 1))
     = queries (snd (alread_exists self w' sample_fingerprint "query_performance" 1)).
Proof.
  intros self w.
  apply (cleanup_old_cache_transparent self w sample_fingerprint "query_performance" 1).
  reflexivity.
Defined.

(** Whole days do not show in [.seconds]. *)
Lemma timedelta_seconds_whole_days (a a' b : datetime) (k : Z) :
  micros a' = micros a + k * 86400000000 ->
  timedelta_seconds a' b = timedelta_seconds a b.
Proof.
  intros H. unfold timedelta_seconds. rewrite H.
  replace (micros a + k * 86400000000 - micros b)
    with (micros a - micros b + (k * 86400) * 1000000) by lia.
  rewrite Z.div_add by lia.
  apply Z_mod_plus_full.
Qed.

(** X7. The freshness test sees the age of an entry modulo one day: a cached
    verdict that is served at some instant is served again, without a query,
    any whole number of days later, whatever the TTL. *)
Theorem cached_verdict_served_whole_days_later (self : DeduplicationEngine)
    (w w' : World) (fingerprint hypertable : string) (lookback_hours : Z)
    (cache_time : datetime) (verdict : bool) (k : Z) :
  cache self !! cache_key hypertable fingerprint = Some (cache_time, verdict) ->
  timedelta_seconds (clock w (reads w)) cache_time < cache_ttl self ->
  micros (clock w' (reads w')) = micros (clock w (reads w)) + k * 86400000000 ->
  exists w'',
    alread_exists self w' fingerprint hypertable lookback_hours = (verdict, self, w'')
    /\ queries w'' = queries w'.
Proof.
  intros Hc Hfresh Hdays.
  apply (alread_exists_hit self w' fingerprint hypertable lookback_hours
           cache_time verdict Hc).
  rewrite (timedelta_seconds_whole_days (clock w (reads w)) _ cache_time k Hdays).
  exact Hfresh.
Qed.

Lemma cached_verdict_served_whole_days_later_witness :
  let self := engine_with_entry (Datetime 2024 1 1 10 0 0 0 None) in
  let w' := still_world (Datetime 2024 1 31 10 20 0 0 None) (Ok false) in
  exists w'',
    alread_exists self w' sample_fingerprint "query_performance" 1 = (true, self, w'')
    /\ queries w'' = queries w'.
Proof.
  intros self w'.
  apply (cached_verdict_served_whole_days_later self
           (still_world (Datetime 2024 1 1 10 20 0 0 None) (Ok false)) w'
           sample_fingerprint "query_performance" 1
           (Datetime 2024 1 1 10 0 0 0 None) true 30);
    vm_compute; reflexivity.
Defined.

(** X8. [clear_cache] forgets every verdict, [mark_inserted] ones included:
    the next [alread_exists], for any fingerprint and hypertable, asks the
    store, once, with the existence query for that hypertable. *)
Theorem clear_cache_forgets (self : DeduplicationEngine) (w : World)
    (marked marked_table fingerprint hypertable : string) (lookback_hours : Z) :
  let '(self1, w1) := mark_inserted self w marked marked_table in
  let '(self2, w2) := clear_cache self1 w1 in
  queries (snd (alread_exists self2 w2 fingerprint hypertable lookback_hours))
  = (queries w ++ [(existence_query hypertable lookback_hours, fingerprint)])%list.
Proof.
  unfold mark_inserted, clear_cache, alread_exists. cbn [utcnow set_cache cache].
  rewrite lookup_empty.
  match goal with
  | |- queries (snd (query_oracle ?s ?w0 _ _ _)) = _ =>
      destruct (query_oracle_verdict s w0 fingerprint hypertable lookback_hours)
        as [_ ->]
  end.
  reflexivity.
Qed.

Lemma string_app_cons (c : ascii) (r s : string) :
  (String c r ++ s = String c (r ++ s))%string.
Proof. reflexivity. Qed.

(** For hypertable names without a colon the cache key determines the
    hypertable and the fingerprint. *)
Lemma cache_key_inj (h h' f f' : string) :
  colon_free h = true -> colon_free h' = true ->
  cache_key h f = cache_key h' f' -> h = h' /\ f = f'.
Proof.
  unfold cache_key. revert h'.
  induction h as [| c r IH]; intros [| c' r'] Hh Hh' E.
  - change (String ":" f = String ":" f') in E. injection E as ->. split; reflexivity.
  - change (String ":" f = String c' (r' ++ ":" ++ f'))%string in E.
    injection E as <- _. cbn in Hh'. discriminate.
  - change (String c (r ++ ":" ++ f) = String ":" f')%string in E.
    injection E as -> _. cbn in Hh. discriminate.
  - rewrite !string_app_cons in E. injection E as -> E.
    cbn [colon_free] in Hh, Hh'.
    apply andb_true_iff in Hh, Hh'. destruct Hh as [_ Hh]. destruct Hh' as [_ Hh'].
    destruct (IH r' Hh Hh' E) as [-> ->]. split; reflexivity.
Qed.

(** X9. Marking one fingerprint does not touch the others: for hypertable
    names without a colon, [alread_exists] for any other pair of hypertable
    and fingerprint gives, after [mark_inserted], the verdict it would have
    given without it, and leaves the same world (clock, queries and log). *)
Theorem mark_inserted_other_key (self : DeduplicationEngine) (w : World)
    (f h f' h' : string) (lookback_hours : Z) :
  colon_free h = true -> colon_free h' = true -> (h, f) <> (h', f') ->
  let self1 := fst (mark_inserted self w f h) in
  let w1 := snd (mark_inserted self w f h) in
  fst (fst (alread_exists self1 w1 f' h' lookback_hours))
  = fst (fst (alread_exists self w1 f' h' lookback_hours))
  /\ snd (alread_exists self1 w1 f' h' lookback_hours)
     = snd (alread_exists self w1 f' h' lookback_hours).
Proof.
  intros Hh Hh' Hne. cbv zeta. unfold mark_inserted. cbn [utcnow fst snd].
  unfold alread_exists. cbn [cache set_cache cache_ttl].
  rewrite lookup_insert_ne.
  2:{ intros E. apply Hne. destruct (cache_key_inj h h' f f' Hh Hh' E) as [-> ->].
      reflexivity. }
  assert (forall s1 s2 w0,
            fst (fst (query_oracle s1 w0 f' h' lookback_hours))
            = fst (fst (query_oracle s2 w0 f' h' lookback_hours))
            /\ snd (query_oracle s1 w0 f' h' lookback_hours)
               = snd (query_oracle s2 w0 f' h' lookback_hours)) as Hq.
  { intros s1 s2 w0. unfold query_oracle, fetchval_ts_db.
    destruct (oracle w0 _ _ _); split; reflexivity. }
  destruct (cache self !! cache_key h' f') as [[t v] |].
  - cbn [utcnow]. destruct (timedelta_seconds _ t <? cache_ttl self);
      [split; reflexivity | apply Hq].
  - apply Hq.
Qed.

Lemma mark_inserted_other_key_witness :
  let w := still_world noon (Ok false) in
  let self1 := fst (mark_inserted init_engine w sample_fingerprint "query_performance") in
  let w1 := snd (mark_inserted init_engine w sample_fingerprint "query_performance") in
  fst (fst (alread_exists self1 w1 sample_fingerprint "index_analytics" 1))
  = fst (fst (alread_exists init_engine w1 sample_fingerprint "index_analytics" 1))
  /\ snd (alread_exists self1 w1 sample_fingerprint "index_analytics" 1)
     = snd (alread_exists init_engine w1 sample_fingerprint "index_analytics" 1).
Proof.
  intros w.
  apply (mark_inserted_other_key init_engine w sample_fingerprint "query_performance"
           sample_fingerprint "index_analytics" 1);
    [reflexivity | reflexivity | discriminate].
Defined.

(** ** should_insert *)



(** [should_insert] once the fingerprint is known: the world [alread_exists]
    starts from differs from [w] by at most one clock reading and the debug
    line. *)
Lemma should_insert_fingerprint (self : DeduplicationEngine) (w : World)
    (data : observation) (hypertable : string) (lookback_hours : Z)
    (fingerprint : string) :
  generate_fingerprint self (clock w (reads w)) data true = Ok fingerprint ->
  exists w1,
    clock w1 = clock w /\ oracle w1 = oracle w /\ queries w1 = queries w
    /\ reads w1 = (if falls_back_to_now data then S (reads w) else reads w)
    /\ should_insert self w data hypertable lookback_hours
       = (Ok (negb (fst (fst (alread_exists self w1 fingerprint hypertable lookback_hours))),
              fingerprint),
          snd (fst (alread_exists self w1 fingerprint hypertable lookback_hours)),
          snd (alread_exists self w1 fingerprint hypertable lookback_hours)).
Proof.
  unfold generate_fingerprint, should_insert.
  destruct (key_string self (clock w (reads w)) data true) as [k | e]; [| discriminate].
  intros [= <-].
  exists (logger DEBUG ("Generated fingerprint: " ++ prefix 16 (Sha256.hexdigest k)
                        ++ "... from " ++ prefix 100 k)
            (if falls_back_to_now data then snd (utcnow w) else w)).
  repeat split; try (destruct (falls_back_to_now data); reflexivity).
  cbv zeta.
  destruct (alread_exists self _ (Sha256.hexdigest k) hypertable lookback_hours)
    as [[ex s'] w3].
  reflexivity.
Qed.



(** X11. Availability over strictness: when the verdict is not in the cache
    and the store raises, [should_insert] admits the observation (it answers
    [True] with the fingerprint) and leaves the engine as it was. *)
Theorem should_insert_admits_when_store_down (self : DeduplicationEngine) (w : World)
    (data : observation) (hypertable : string) (lookback_hours : Z)
    (fingerprint : string) (e : exn) :
  generate_fingerprint self (clock w (reads w)) data true = Ok fingerprint ->
  cache self !! cache_key hypertable fingerprint = None ->
  oracle w (length (queries w)) (existence_query hypertable lookback_hours) fingerprint
    = Raise e ->
  exists w',
    should_insert self w data hypertable lookback_hours
    = (Ok (true, fingerprint), self, w')
    /\ queries w'
       = (queries w ++ [(existence_query hypertable lookback_hours, fingerprint)])%list.
Proof.
  intros Hfp Hc Ho.
  destruct (should_insert_fingerprint self w data hypertable lookback_hours
              fingerprint Hfp) as (w1 & _ & Eo & Eq & _ & Hs).
  rewrite Hs. unfold alread_exists. rewrite Hc.
  unfold query_oracle, fetchval_ts_db. rewrite Eo, Eq, Ho. cbn.
  eexists. split; reflexivity.
Qed.

Lemma should_insert_admits_when_store_down_witness :
  let w := still_world noon (Raise (TransportError "connection refused")) in
  exists w',
    should_insert engine5 w (slow_query "2024-01-01T10:03:30Z") "query_performance" 1
    = (Ok (true, sample_fingerprint), engine5, w')
    /\ queries w'
       = (queries w ++ [(existence_query "query_performance" 1, sample_fingerprint)])%list.
Proof.
  intros w.
  apply (should_insert_admits_when_store_down engine5 w
           (slow_query "2024-01-01T10:03:30Z") "query_performance" 1
           sample_fingerprint (TransportError "connection refused"));
    vm_compute; reflexivity.
Defined.

(** X12. An engine whose [bucket_minutes] is still the tuple of [__init__]
    admits nothing that carries a timestamp: [should_insert] raises before it
    looks at the cache or the store, and the engine is unchanged. *)
Theorem should_insert_raises_on_tuple_width (self : DeduplicationEngine) (w : World)
    (data : observation) (hypertable : string) (lookback_hours n : Z) :
  bucket_minutes self = BucketTuple n ->
  truthy (select_timestamp data) = true ->
  exists e w',
    should_insert self w data hypertable lookback_hours = (Raise e, self, w')
    /\ queries w' = queries w /\ log w' = log w.
Proof.
  intros Hb Ht. unfold should_insert, key_string, time_parts. rewrite Ht.
  assert (exists e, _bucket_timestamp self (clock w (reads w)) (select_timestamp data)
                    = Raise e) as [e ->].
  { unfold _bucket_timestamp. rewrite Hb.
    destruct (select_timestamp data) as [| b | k | s | d | ty tr tx]; cbn;
      try (eexists; reflexivity).
    destruct (fromisoformat _); eexists; reflexivity. }
  exists e. eexists. split; [reflexivity |].
  destruct (falls_back_to_now data); split; reflexivity.
Qed.

Lemma should_insert_raises_on_tuple_width_witness :
  let w := still_world noon (Ok false) in
  exists e w',
    should_insert init_engine w (slow_query "2024-01-01T10:03:30Z") "query_performance" 1
    = (Raise e, init_engine, w')
    /\ queries w' = queries w /\ log w' = log w.
Proof.
  intros w.
  apply (should_insert_raises_on_tuple_width init_engine w
           (slow_query "2024-01-01T10:03:30Z") "query_performance" 1 5);
    reflexivity.
Defined.

(** The outcome of a call that finds no entry and gets an answer. *)
Lemma alread_exists_absent_result (self : DeduplicationEngine) (w : World)
    (fingerprint hypertable : string) (lookback_hours : Z) (verdict : bool) :
  cache self !! cache_key hypertable fingerprint = None ->
  oracle w (length (queries w)) (existence_query hypertable lookback_hours) fingerprint
    = Ok verdict ->
  alread_exists self w fingerprint hypertable lookback_hours
  = (verdict,
     set_cache self
       (<[cache_key hypertable fingerprint := (clock w (reads w), verdict)]> (cache self)),
     logger DEBUG ("Fingerprint " ++ (if verdict then "exists" else "not found")
                   ++ ": " ++ prefix 16 fingerprint ++ "..")
       (MkWorld (clock w) (S (reads w)) (oracle w)
          (queries w ++ [(existence_query hypertable lookback_hours, fingerprint)])
          (log w))).
Proof.
  intros Hc Ho. unfold alread_exists. rewrite Hc.
  unfold query_oracle, fetchval_ts_db. rewrite Ho. reflexivity.
Qed.

(** X13. [alread_exists] asks the store at most once per TTL window: after a
    call that found no entry and got an answer from the store, a second call
    whose clock reading is less than the TTL after the caching instant returns
    the same verdict from the cache, and the store has been asked once. *)
Theorem alread_exists_twice_one_query (self : DeduplicationEngine) (w : World)
    (fingerprint hypertable : string) (lookback_hours : Z) (verdict : bool) :
  cache self !! cache_key hypertable fingerprint = None ->
  oracle w (length (queries w)) (existence_query hypertable lookback_hours) fingerprint
    = Ok verdict ->
  0 <= micros (clock w (S (reads w))) - micros (clock w (reads w))
    < cache_ttl self * 1000000 ->
  let first := alread_exists self w fingerprint hypertable lookback_hours in
  let second :=
    alread_exists (snd (fst first)) (snd first) fingerprint hypertable lookback_hours in
  fst (fst first) = verdict
  /\ fst (fst second) = verdict
  /\ snd (fst second) = snd (fst first)
  /\ queries (snd second)
     = (queries w ++ [(existence_query hypertable lookback_hours, fingerprint)])%list.
Proof.
  intros Hc Ho Hd. cbv zeta.
  rewrite (alread_exists_absent_result self w fingerprint hypertable lookback_hours
             verdict Hc Ho).
  cbn [fst snd].
  match goal with
  | |- _ /\ fst (fst (alread_exists ?s1 ?w1 _ _ _)) = _ /\ _ =>
      destruct (alread_exists_hit s1 w1 fingerprint hypertable lookback_hours
                  (clock w (reads w)) verdict) as (w2 & Hhit & Hq)
  end.
  - apply lookup_insert_eq.
  - cbn [logger clock reads cache_ttl set_cache].
    apply timedelta_seconds_small. exact Hd.
  - rewrite Hhit. cbn [fst snd]. repeat split; try reflexivity. exact Hq.
Qed.

Lemma alread_exists_twice_one_query_witness :
  let w := still_world noon (Ok true) in
  let first := alread_exists init_engine w sample_fingerprint "query_performance" 1 in
  let second :=
    alread_exists (snd (fst first)) (snd first) sample_fingerprint "query_performance" 1 in
  fst (fst first) = true
  /\ fst (fst second) = true
  /\ snd (fst second) = snd (fst first)
  /\ queries (snd second)
     = (queries w ++ [(existence_query "query_performance" 1, sample_fingerprint)])%list.
Proof.
  intros w.
  apply (alread_exists_twice_one_query init_engine w sample_fingerprint
           "query_performance" 1 true).
  - reflexivity.
  - reflexivity.
  - vm_compute. split; [discriminate | reflexivity].
Defined.

(** ** The subscription registry *)

Lemma lookup_channel_cons (c : string) (cbs : list callback)
    (rest : list (string * list callback)) (channel : string) :
  lookup_channel channel ((c, cbs) :: rest)
  = if String.eqb c channel then Some cbs else lookup_channel channel rest.
Proof. unfold lookup_channel. cbn. destruct (String.eqb c channel); reflexivity. Qed.

Lemma lookup_channel_nil (channel : string) : lookup_channel channel [] = None.
Proof. reflexivity. Qed.

Lemma lookup_channel_none (channel : string) (subs : list (string * list callback)) :
  lookup_channel channel subs = None <-> channel ∉ map fst subs.
Proof.
  induction subs as [| [c cbs] rest IH].
  - split; [intros _ H; inversion H | reflexivity].
  - rewrite lookup_channel_cons. cbn [map fst]. rewrite not_elem_of_cons.
    destruct (String.eqb_spec c channel) as [-> | Hne].
    + split; [discriminate | intros [H _]; contradiction].
    + rewrite IH. split; [intros H; split; [congruence | exact H] | intros [_ H]; exact H].
Qed.

Lemma lookup_channel_append_callback (channel channel' : string) (cb : callback)
    (subs : list (string * list callback)) :
  lookup_channel channel' (append_callback channel cb subs)
  = if String.eqb channel' channel
    then (fun l => (l ++ [cb])%list) <$> lookup_channel channel subs
    else lookup_channel channel' subs.
Proof.
  induction subs as [| [c cbs] rest IH].
  - destruct (String.eqb channel' channel); reflexivity.
  - cbn [append_callback].
    destruct (String.eqb_spec c channel) as [-> | Hne].
    + rewrite !lookup_channel_cons, String.eqb_refl.
      rewrite (String.eqb_sym channel channel').
      destruct (String.eqb channel' channel); reflexivity.
    + rewrite !lookup_channel_cons, IH.
      destruct (String.eqb_spec c channel') as [-> | Hne'].
      * destruct (String.eqb_spec channel' channel) as [-> | _]; [contradiction | reflexivity].
      * destruct (String.eqb_spec c channel) as [-> | _]; [contradiction | reflexivity].
Qed.

Lemma lookup_channel_new (channel channel' : string)
    (subs : list (string * list callback)) :
  lookup_channel channel subs = None ->
  lookup_channel channel' (subs ++ [(channel, [])])
  = if String.eqb channel' channel then Some [] else lookup_channel channel' subs.
Proof.
  induction subs as [| [c cbs] rest IH]; intros Hn.
  - cbn [app]. rewrite lookup_channel_cons, lookup_channel_nil.
    rewrite (String.eqb_sym channel channel'). reflexivity.
  - cbn [app]. rewrite lookup_channel_cons in Hn. rewrite !lookup_channel_cons.
    destruct (String.eqb_spec c channel) as [-> | Hne]; [discriminate |].
    rewrite (IH Hn).
    destruct (String.eqb_spec c channel') as [-> | _]; [| reflexivity].
    destruct (String.eqb_spec channel' channel) as [-> | _]; [contradiction | reflexivity].
Qed.

Lemma append_callback_keys (channel : string) (cb : callback)
    (subs : list (string * list callback)) :
  map fst (append_callback channel cb subs) = map fst subs.
Proof.
  induction subs as [| [c cbs] rest IH]; [reflexivity |].
  cbn [append_callback]. destruct (String.eqb c channel); cbn [map fst]; congruence.
Qed.

(** The registry [subscribe] leaves. *)
Lemma subscribe_result (channel : string) (cb : callback) (s : Sys) :
  subscribe channel cb s
  = (Ok tt,
     MkSys (MkRouter (db (router s))
              (append_callback channel cb
                 (match lookup_channel channel (subscribers (router s)) with
                  | Some _ => subscribers (router s)
                  | None => (subscribers (router s) ++ [(channel, [])])%list
                  end))
              (running (router s)))
           (ops s)
           (out s ++ [(Log INFO, "agent subscribed to channel: " ++ channel);
                      (Stdout, "agent subscribed to channel: " ++ channel)])).
Proof.
  unfold subscribe, gets, set_subscribers, py_print, put_line, modify, mbind, M_bind, bind.
  cbn. rewrite <- app_assoc. reflexivity.
Qed.

(** [subscribe] appends: the callback goes to the end of its channel's list,
    every other list is untouched, a channel seen for the first time is added
    after the existing ones, and nothing else of the router changes. *)
Lemma subscribe_effect (channel : string) (cb : callback) (s : Sys)
    (channel' : string) :
  fst (subscribe channel cb s) = Ok tt
  /\ callbacks_of (router (snd (subscribe channel cb s))) channel'
     = (callbacks_of (router s) channel'
        ++ (if String.eqb channel' channel then [cb] else []))%list
  /\ get_active_channels (router (snd (subscribe channel cb s)))
     = (get_active_channels (router s)
        ++ (if bool_decide (channel ∈ get_active_channels (router s)) then [] else [channel]))%list
  /\ db (router (snd (subscribe channel cb s))) = db (router s)
  /\ running (router (snd (subscribe channel cb s))) = running (router s)
  /\ ops (snd (subscribe channel cb s)) = ops s.
Proof.
  rewrite subscribe_result. cbn [fst snd router subscribers db running ops].
  unfold callbacks_of, get_active_channels. cbn [subscribers].
  rewrite lookup_channel_append_callback, append_callback_keys.
  split; [reflexivity |].
  destruct (lookup_channel channel (subscribers (router s))) as [cbs |] eqn:Hl.
  - assert (channel ∈ map fst (subscribers (router s))) as Hin.
    { destruct (decide (channel ∈ map fst (subscribers (router s)))) as [H | H];
        [exact H |]. apply lookup_channel_none in H. congruence. }
    rewrite (bool_decide_eq_true_2 _ Hin), app_nil_r.
    repeat split; try reflexivity.
    destruct (String.eqb_spec channel' channel) as [-> | _].
    + rewrite Hl. reflexivity.
    + rewrite app_nil_r. reflexivity.
  - assert (channel ∉ map fst (subscribers (router s))) as Hnin
      by (apply lookup_channel_none; exact Hl).
    rewrite (bool_decide_eq_false_2 _ Hnin), map_app.
    repeat split; try reflexivity.
    rewrite !(lookup_channel_new channel _ _ Hl).
    destruct (String.eqb_spec channel' channel) as [-> | _].
    + rewrite String.eqb_refl, Hl. reflexivity.
    + rewrite app_nil_r. reflexivity.
Qed.

(** X14. What [subscribe] does to the introspection functions:
    [get_subscriber_count] grows by one for the channel and is unchanged for
    every other one, a channel seen for the first time comes last in
    [get_active_channels], and the listeners, the running flag and the
    transport calls are untouched.  Subscribing the same callback again counts
    again. *)
Theorem subscribe_counts (channel : string) (cb : callback) (s : Sys)
    (channel' : string) :
  fst (subscribe channel cb s) = Ok tt
  /\ get_subscriber_count (router (snd (subscribe channel cb s))) channel'
     = (get_subscriber_count (router s) channel'
        + (if String.eqb channel' channel then 1 else 0))%nat
  /\ get_active_channels (router (snd (subscribe channel cb s)))
     = (get_active_channels (router s)
        ++ (if bool_decide (channel ∈ get_active_channels (router s)) then [] else [channel]))%list
  /\ db (router (snd (subscribe channel cb s))) = db (router s)
  /\ running (router (snd (subscribe channel cb s))) = running (router s)
  /\ ops (snd (subscribe channel cb s)) = ops s.
Proof.
  destruct (subscribe_effect channel cb s channel') as (H1 & H2 & H3 & H4 & H5 & H6).
  repeat split; try assumption.
  unfold get_subscriber_count. fold (callbacks_of (router (snd (subscribe channel cb s))) channel').
  fold (callbacks_of (router s) channel').
  rewrite H2, length_app. destruct (String.eqb channel' channel); reflexivity.
Qed.

Lemma lookup_channel_set_callbacks (channel channel' : string)
    (new : list callback) (subs : list (string * list callback)) :
  lookup_channel channel' (set_callbacks channel new subs)
  = if String.eqb channel' channel
    then (fun _ => new) <$> lookup_channel channel subs
    else lookup_channel channel' subs.
Proof.
  induction subs as [| [c cbs] rest IH].
  - destruct (String.eqb channel' channel); reflexivity.
  - cbn [set_callbacks].
    destruct (String.eqb_spec c channel) as [-> | Hne].
    + rewrite !lookup_channel_cons, String.eqb_refl.
      rewrite (String.eqb_sym channel channel').
      destruct (String.eqb channel' channel); reflexivity.
    + rewrite !lookup_channel_cons, IH.
      destruct (String.eqb_spec c channel') as [-> | Hne'].
      * destruct (String.eqb_spec channel' channel) as [-> | _]; [contradiction | reflexivity].
      * destruct (String.eqb_spec c channel) as [-> | _]; [contradiction | reflexivity].
Qed.

Lemma set_callbacks_keys (channel : string) (new : list callback)
    (subs : list (string * list callback)) :
  map fst (set_callbacks channel new subs) = map fst subs.
Proof.
  induction subs as [| [c cbs] rest IH]; [reflexivity |].
  cbn [set_callbacks]. destruct (String.eqb c channel); cbn [map fst]; congruence.
Qed.

(** [list.remove] takes out the first occurrence, and only that. *)
Lemma list_remove_some (x : callback) (l l' : list callback) :
  list_remove x l = Some l' ->
  exists l1 l2, l = (l1 ++ x :: l2)%list /\ (x ∉ l1) /\ l' = (l1 ++ l2)%list.
Proof.
  revert l'. induction l as [| y rest IH]; intros l' H; [discriminate |].
  cbn [list_remove] in H. destruct (Nat.eqb_spec x y) as [<- | Hne].
  - injection H as <-. exists [], rest. repeat split. apply not_elem_of_nil.
  - destruct (list_remove x rest) as [r |]; [| discriminate].
    injection H as <-. destruct (IH r eq_refl) as (l1 & l2 & -> & Hnin & ->).
    exists (y :: l1), l2. repeat split.
    apply not_elem_of_cons. split; [exact Hne | exact Hnin].
Qed.

Lemma list_remove_present (x : callback) (l : list callback) :
  is_Some (list_remove x l) <-> has_callback x l = true.
Proof.
  unfold has_callback. induction l as [| y rest IH]; cbn [list_remove existsb].
  - split; [intros [? H]; discriminate | discriminate].
  - destruct (Nat.eqb x y); cbn [orb]; [split; [reflexivity | eexists; reflexivity] |].
    rewrite <- IH. destruct (list_remove x rest); cbn.
    + split; intros _; eexists; reflexivity.
    + split; intros [? H]; discriminate.
Qed.

Lemma list_remove_last (x : callback) (l : list callback) :
  has_callback x l = false -> list_remove x (l ++ [x]) = Some l.
Proof.
  unfold has_callback. induction l as [| y rest IH]; cbn [existsb app list_remove].
  - rewrite Nat.eqb_refl. reflexivity.
  - intros H. apply orb_false_iff in H. destruct H as [Hxy Hrest].
    rewrite Hxy, (IH Hrest). reflexivity.
Qed.

(** The state [unsubscribe] leaves; it never raises. *)
Lemma unsubscribe_result (channel : string) (cb : callback) (s : Sys) :
  unsubscribe channel cb s
  = (Ok tt,
     match lookup_channel channel (subscribers (router s)) with
     | None => s
     | Some cbs =>
         match list_remove cb cbs with
         | Some cbs' =>
             MkSys (MkRouter (db (router s))
                      (set_callbacks channel cbs' (subscribers (router s)))
                      (running (router s)))
                   (ops s)
                   (out s ++ [(Log INFO, "Agent unsubscribed from channel: " ++ channel)])
         | None =>
             MkSys (router s) (ops s)
                   (out s ++ [(Log WARNING, "Callback not found in " ++ channel)])
         end
     end).
Proof.
  unfold unsubscribe, gets, set_subscribers, put_line, modify, mbind, M_bind, bind.
  destruct (lookup_channel channel (subscribers (router s))) as [cbs |]; [| reflexivity].
  destruct (list_remove cb cbs); reflexivity.
Qed.

(** X15. [unsubscribe] takes the first occurrence of the callback out of its
    channel's list and nothing else: the callbacks before and after it keep
    their order, the other channels keep their lists, the channel stays
    registered even when its list becomes empty, and an unknown channel or
    callback leaves the registry as it was.  It never raises. *)
Theorem unsubscribe_removes_first (channel : string) (cb : callback) (s : Sys)
    (channel' : string) :
  fst (unsubscribe channel cb s) = Ok tt
  /\ get_active_channels (router (snd (unsubscribe channel cb s)))
     = get_active_channels (router s)
  /\ db (router (snd (unsubscribe channel cb s))) = db (router s)
  /\ ops (snd (unsubscribe channel cb s)) = ops s
  /\ (if has_callback cb (callbacks_of (router s) channel)
      then exists l1 l2,
             callbacks_of (router s) channel = (l1 ++ cb :: l2)%list
             /\ (cb ∉ l1)
             /\ callbacks_of (router (snd (unsubscribe channel cb s))) channel'
                = (if String.eqb channel' channel then (l1 ++ l2)%list
                   else callbacks_of (router s) channel')
      else router (snd (unsubscribe channel cb s)) = router s).
Proof.
  rewrite unsubscribe_result. cbn [fst snd]. unfold callbacks_of, get_active_channels.
  destruct (lookup_channel channel (subscribers (router s))) as [cbs |] eqn:Hl;
    cbn [from_option id].
  - destruct (list_remove cb cbs) as [cbs' |] eqn:Hr.
    + cbn [router subscribers db ops]. rewrite set_callbacks_keys.
      repeat split; try reflexivity.
      assert (has_callback cb cbs = true) as ->
        by (apply list_remove_present; eexists; exact Hr).
      destruct (list_remove_some cb cbs cbs' Hr) as (l1 & l2 & -> & Hnin & ->).
      exists l1, l2. repeat split; [exact Hnin |].
      rewrite lookup_channel_set_callbacks, Hl.
      destruct (String.eqb channel' channel); reflexivity.
    + cbn [router ops]. repeat split; try reflexivity.
      assert (has_callback cb cbs = false) as ->; [| reflexivity].
      destruct (has_callback cb cbs) eqn:E; [| reflexivity].
      apply list_remove_present in E. destruct E as [? E]. congruence.
  - repeat split; reflexivity.
Qed.

(** X16. [subscribe] followed by [unsubscribe] of a callback that was not yet
    on the channel gives every channel its list back; the channel itself, if
    it was new, stays registered with an empty list. *)
Theorem subscribe_unsubscribe_round_trip (channel : string) (cb : callback) (s : Sys)
    (channel' : string) :
  has_callback cb (callbacks_of (router s) channel) = false ->
  let s' := snd (unsubscribe channel cb (snd (subscribe channel cb s))) in
  callbacks_of (router s') channel' = callbacks_of (router s) channel'
  /\ get_active_channels (router s')
     = (get_active_channels (router s)
        ++ (if bool_decide (channel ∈ get_active_channels (router s)) then [] else [channel]))%list.
Proof.
  intros Hfresh. cbv zeta.
  destruct (subscribe_effect channel cb s channel) as (_ & Hown & Hkeys & _).
  destruct (subscribe_effect channel cb s channel') as (_ & Hother & _ & _).
  rewrite String.eqb_refl in Hown.
  set (s1 := snd (subscribe channel cb s)) in *.
  rewrite unsubscribe_result. cbn [snd].
  unfold callbacks_of in Hown, Hother, Hfresh |- *. unfold get_active_channels in *.
  destruct (lookup_channel channel (subscribers (router s1))) as [cbs1 |] eqn:Hl1.
  - cbn [from_option id] in Hown. subst cbs1.
    rewrite (list_remove_last cb _ Hfresh).
    cbn [router subscribers]. rewrite set_callbacks_keys, Hkeys.
    split; [| reflexivity].
    rewrite lookup_channel_set_callbacks, Hl1. cbn [fmap option_fmap option_map].
    destruct (String.eqb_spec channel' channel) as [-> | Hne].
    + reflexivity.
    + rewrite Hother, app_nil_r. reflexivity.
  - cbn [from_option id] in Hown. destruct (default [] _); discriminate Hown.
Qed.

Lemma subscribe_unsubscribe_round_trip_witness :
  let s' := snd (unsubscribe "approval_events" 7%nat
                   (snd (subscribe "approval_events" 7%nat idle_router))) in
  callbacks_of (router s') "monitoring_events"
  = callbacks_of (router idle_router) "monitoring_events"
  /\ get_active_channels (router s')
     = (get_active_channels (router idle_router)
        ++ (if bool_decide ("approval_events" ∈ get_active_channels (router idle_router))
            then [] else ["approval_events"]))%list.
Proof.
  apply (subscribe_unsubscribe_round_trip "approval_events" 7%nat idle_router
           "monitoring_events").
  reflexivity.
Defined.

(** ** handle_event *)

(** X18. [handle_event] never raises and does not itself touch the router:
    whatever the payload, the registry and the callbacks' outcomes, it returns
    normally, and its own code leaves the subscribers, the database handle,
    the running flag and the transport calls as they were. *)
Theorem handle_event_contained (json_loads : string -> result json)
    (run_callback : callback -> observation -> call_outcome)
    (channel payload : string) (s : Sys) :
  is_ok (fst (handle_event json_loads run_callback channel payload s)) = true
  /\ router (snd (handle_event json_loads run_callback channel payload s)) = router s
  /\ ops (snd (handle_event json_loads run_callback channel payload s)) = ops s.
Proof.
  unfold handle_event, gather, lift, try_except, gets, py_print, put_line, modify,
    raise, mbind, mret, M_bind, M_ret, bind, ret.
  destruct (json_loads payload) as [[o | ty] | [m | m | m | m | m]];
    try (repeat split; reflexivity);
    destruct (lookup_channel channel (subscribers (router s))) as [cbs |];
    try (repeat split; reflexivity).
  destruct (create_tasks run_callback cbs o); repeat split; reflexivity.
Qed.






(** X20. An event that cannot be dispatched reaches no callback: a payload
    that [json.loads] rejects, a JSON value that is not an object, and a
    channel nobody subscribed to all end with an empty result list. *)
Theorem handle_event_drops (json_loads : string -> result json)
    (run_callback : callback -> observation -> call_outcome)
    (channel payload : string) (s : Sys) :
  match json_loads payload with
  | Ok (JObject _) => lookup_channel channel (subscribers (router s)) = None
  | _ => True
  end ->
  fst (handle_event json_loads run_callback channel payload s) = Ok [].
Proof.
  unfold handle_event, try_except, gets, py_print, put_line, modify, raise,
    mbind, mret, M_bind, M_ret, bind, ret.
  destruct (json_loads payload) as [[o | ty] | [m | m | m | m | m]];
    try reflexivity.
  - intros ->. reflexivity.
  - intros _. destruct (lookup_channel channel (subscribers (router s))); reflexivity.
Qed.

Lemma handle_event_drops_witness :
  fst (handle_event loads_empty_object first_callback_fails "monitoring_events"
         "{not json" idle_router)
  = Ok [].
Proof.
  apply (handle_event_drops loads_empty_object first_callback_fails
           "monitoring_events" "{not json" idle_router).
  exact I.
Defined.




(** ** Listening, stopping and publishing *)

(** [listen_channel], case by case. *)
Lemma listen_channel_cases (t : Transport) (c : string) (s : Sys) :
  listen_channel t c s
  = match listeners (db (router s)) !! c with
    | Some _ =>
        (Ok tt,
         MkSys (router s) (ops s)
               (out s ++ [(Log WARNING, "already listening on channel: " ++ c)]))
    | None =>
        let n := acquired (db (router s)) in
        match acquire_fails t c with
        | Some e =>
            (Raise e,
             MkSys (router s) (ops s)
                   (out s ++ [(Log ERROR, "Failed to listen on {channel}: {e}");
                              (Stdout, "❌ Failed to listen on " ++ c ++ ": " ++ exn_str e)]))
        | None =>
            match add_listener_fails t c with
            | Some e =>
                (Raise e,
                 MkSys (MkRouter (MkDb (listeners (db (router s))) (S n))
                                 (subscribers (router s)) (running (router s)))
                       (ops s ++ [Acquire n])
                       (out s ++ [(Log ERROR, "Failed to listen on {channel}: {e}");
                                  (Stdout, "❌ Failed to listen on " ++ c ++ ": "
                                           ++ exn_str e)]))
            | None =>
                (Ok tt,
                 MkSys (MkRouter (MkDb (<[c := n]> (listeners (db (router s)))) (S n))
                                 (subscribers (router s)) (running (router s)))
                       (ops s ++ [Acquire n; AddListener c n])
                       (out s ++ [(Log INFO, "Listening on channel " ++ c);
                                  (Stdout, "Listening on channel " ++ c)]))
            end
        end
    end.
Proof.
  unfold listen_channel, gets, mbind, M_bind, bind.
  destruct (listeners (db (router s)) !! c) as [conn |]; [reflexivity |].
  unfold try_except, pool_acquire, transport_call, set_db, record_op, py_print,
    put_line, modify, gets, raise, mbind, mret, M_bind, M_ret, bind, ret.
  destruct (acquire_fails t c) as [e |]; cbn.
  - rewrite <- app_assoc. reflexivity.
  - destruct (add_listener_fails t c) as [e |]; cbn;
      rewrite <- !app_assoc; reflexivity.
Qed.

Lemma listen_channel_keeps (t : Transport) (c : string) (s : Sys) :
  running (router (snd (listen_channel t c s))) = running (router s)
  /\ subscribers (router (snd (listen_channel t c s))) = subscribers (router s).
Proof.
  rewrite listen_channel_cases.
  destruct (listeners (db (router s)) !! c); [split; reflexivity |].
  cbv zeta. destruct (acquire_fails t c); [split; reflexivity |].
  destruct (add_listener_fails t c); split; reflexivity.
Qed.

(** With [running] cleared the [for] loop does not reach the [sleep]. *)
Lemma listen_loop_stopped (t : Transport) (channels : list string) :
  forall s,
    running (router s) = false ->
    (forall rest, fst (listen_loop t channels s) <> Ok (Sleeping rest))
    /\ running (router (snd (listen_loop t channels s))) = false
    /\ subscribers (router (snd (listen_loop t channels s))) = subscribers (router s).
Proof.
  induction channels as [| c rest IH]; intros s Hr.
  - repeat split; [discriminate | exact Hr].
  - cbn [listen_loop].
    unfold get_running, gets, py_print, put_line, modify, mbind, M_bind, bind.
    destruct (listen_channel_keeps t c s) as [Hk Hsub].
    destruct (listen_channel t c s) as [[[] | e] s1]; cbn [fst snd] in Hk, Hsub |- *.
    + cbn [router running]. rewrite Hk, Hr.
      match goal with
      | |- context [listen_loop t rest ?s2] =>
          destruct (IH s2) as (H1 & H2 & H3); [cbn; congruence |]
      end.
      repeat split; [exact H1 | exact H2 |].
      rewrite H3. cbn. exact Hsub.
    + repeat split; [discriminate | congruence | exact Hsub].
Qed.

(** [listen_channel] takes no listener away and hands no connection back. *)
Lemma listen_channel_listeners (t : Transport) (c : string) (s : Sys) :
  (forall ch conn,
      listeners (db (router s)) !! ch = Some conn ->
      listeners (db (router (snd (listen_channel t c s)))) !! ch = Some conn)
  /\ (forall conn,
        Release conn ∈ ops (snd (listen_channel t c s)) -> Release conn ∈ ops s).
Proof.
  rewrite listen_channel_cases.
  destruct (listeners (db (router s)) !! c) as [n |] eqn:Hl; [split; auto |].
  cbv zeta. destruct (acquire_fails t c); [split; auto |].
  destruct (add_listener_fails t c); cbn [snd router db listeners ops]; split; auto.
  - intros conn Hin. apply elem_of_app in Hin. destruct Hin as [Hin | Hin]; [exact Hin |].
    apply list_elem_of_singleton in Hin. discriminate Hin.
  - intros ch conn Hch. destruct (decide (c = ch)) as [-> | Hne]; [congruence |].
    rewrite lookup_insert_ne by exact Hne. exact Hch.
  - intros conn Hin. apply elem_of_app in Hin. destruct Hin as [Hin | Hin]; [exact Hin |].
    apply elem_of_cons in Hin. destruct Hin as [Hin | Hin]; [discriminate Hin |].
    apply list_elem_of_singleton in Hin. discriminate Hin.
Qed.

Lemma listen_loop_listeners (t : Transport) (channels : list string) :
  forall s,
    (forall ch conn,
        listeners (db (router s)) !! ch = Some conn ->
        listeners (db (router (snd (listen_loop t channels s)))) !! ch = Some conn)
    /\ (forall conn,
          Release conn ∈ ops (snd (listen_loop t channels s)) -> Release conn ∈ ops s).
Proof.
  induction channels as [| c rest IH]; intros s; [split; auto |].
  cbn [listen_loop].
  unfold get_running, gets, py_print, put_line, modify, mbind, M_bind, bind.
  destruct (listen_channel_listeners t c s) as [Hk Hrel].
  destruct (listen_channel t c s) as [[[] | e] s1]; cbn [fst snd] in Hk, Hrel |- *;
    [| split; assumption].
  cbn [router running].
  destruct (running (router s1)); cbn [snd router ops]; [split; assumption |].
  match goal with
  | |- context [listen_loop t rest ?s2] => destruct (IH s2) as [H1 H2]
  end.
  cbn [router ops] in H1, H2. split; auto.
Qed.

(** X21. [stop] ends the run at the next wake-up and leaves every listener
    in place: the coroutine does not go back to sleep and [running] stays
    cleared, whether or not the remaining [listen_channel] calls go through;
    but after the [cleanup] of the run every channel that had a listener
    still has it, on the same connection, and no connection has been handed
    back to the pool. *)
Theorem stop_ends_run (t : Transport) (rest : list string) (s : Sys) :
  let s' := snd (resume t rest (snd (stop s))) in
  (forall rest', fst (resume t rest (snd (stop s))) <> Ok (Sleeping rest'))
  /\ running (router s') = false
  /\ (forall ch conn,
        listeners (db (router s)) !! ch = Some conn ->
        listeners (db (router s')) !! ch = Some conn)
  /\ (forall conn, Release conn ∈ ops s' -> Release conn ∈ ops s).
Proof.
  cbv zeta.
  set (s0 := snd (stop s)).
  assert (running (router s0) = false) as Hr0 by reflexivity.
  assert (listeners (db (router s0)) = listeners (db (router s)) /\ ops s0 = ops s)
    as [Hl0 Ho0] by (split; reflexivity).
  destruct (listen_loop_stopped t rest s0 Hr0) as (Hns & Hr1 & _).
  destruct (listen_loop_listeners t rest s0) as [Hk Hrel].
  rewrite Hl0 in Hk. rewrite Ho0 in Hrel.
  unfold resume, guarded, get_running, gets, mbind, M_bind, bind. rewrite Hr0.
  destruct (listen_loop t rest s0) as [[[| rest1] | e] s1];
    cbn [fst snd] in Hns, Hr1, Hk, Hrel.
  - destruct (cleanup_leaves s1) as [Hrt Hops].
    rewrite (cleanup_unfold s1) in Hrt, Hops |- *. cbn [fst snd ret] in Hrt, Hops |- *.
    rewrite Hrt, Hops. repeat split; [discriminate | exact Hr1 | exact Hk | exact Hrel].
  - exfalso. apply (Hns rest1). reflexivity.
  - unfold py_print, put_line, set_running, modify, raise. cbn [fst snd].
    match goal with
    | |- context [cleanup ?s2] =>
        destruct (cleanup_leaves s2) as [Hrt Hops];
        rewrite (cleanup_unfold s2) in Hrt, Hops |- *
    end.
    cbn [fst snd router ops running db] in Hrt, Hops |- *.
    rewrite Hrt, Hops. cbn [router running db ops].
    repeat split; [discriminate | exact Hk | exact Hrel].
Qed.

(** X22. A router started before anyone subscribed is stuck: with no
    channel, [start_listening] returns at once and leaves [running] set, so a
    [start_listening] after a later [subscribe] is refused and makes no
    transport call. *)
Theorem start_listening_before_subscribers (t : Transport) (s : Sys)
    (channel : string) (cb : callback) :
  subscribers (router s) = [] ->
  running (router s) = false ->
  listeners (db (router s)) = ∅ ->
  let s1 := snd (start_listening t s) in
  let s2 := snd (subscribe channel cb s1) in
  fst (start_listening t s) = Ok Finished
  /\ running (router s1) = true
  /\ fst (start_listening t s2) = Ok Finished
  /\ ops (snd (start_listening t s2)) = ops s
  /\ listeners (db (router (snd (start_listening t s2)))) = ∅.
Proof.
  intros Hsub Hrun Hl. cbv zeta.
  assert (start_listening t s
          = (Ok Finished,
             MkSys (MkRouter (db (router s)) [] true) (ops s)
                   (out s ++ [(Log INFO, "EventRouter cleanup complete")]))) as Hfirst.
  { unfold start_listening, guarded, get_running, set_running, modify, gets,
      get_active_channels, mbind, M_bind, bind.
    rewrite Hrun. cbn [router subscribers running]. rewrite Hsub. cbn [map listen_loop ret].
    rewrite cleanup_unfold. cbn [get_active_channels router subscribers map
                                 unlisten_all ret snd ops out fst].
    reflexivity. }
  rewrite Hfirst. cbn [fst snd router running].
  rewrite subscribe_result. cbn [snd].
  unfold start_listening, get_running, gets, put_line, modify, mbind, M_bind, bind.
  cbn. repeat split; try reflexivity. exact Hl.
Qed.

Lemma start_listening_before_subscribers_witness :
  let s := MkSys (MkRouter (MkDb ∅ 0) [] false) [] [] in
  let s1 := snd (start_listening reliable s) in
  let s2 := snd (subscribe "monitoring_events" 1%nat s1) in
  fst (start_listening reliable s) = Ok Finished
  /\ running (router s1) = true
  /\ fst (start_listening reliable s2) = Ok Finished
  /\ ops (snd (start_listening reliable s2)) = ops s
  /\ listeners (db (router (snd (start_listening reliable s2)))) = ∅.
Proof.
  intros s.
  apply (start_listening_before_subscribers reliable s "monitoring_events" 1%nat);
    reflexivity.
Defined.

(** X23. Listening twice takes one connection: after a [listen_channel] that
    returned, a second one for the same channel acquires nothing and leaves
    the router and the transport calls as they are. *)
Theorem listen_channel_once (t : Transport) (c : string) (s : Sys) :
  fst (listen_channel t c s) = Ok tt ->
  fst (listen_channel t c (snd (listen_channel t c s))) = Ok tt
  /\ router (snd (listen_channel t c (snd (listen_channel t c s))))
     = router (snd (listen_channel t c s))
  /\ ops (snd (listen_channel t c (snd (listen_channel t c s))))
     = ops (snd (listen_channel t c s)).
Proof.
  intros Hok.
  assert (is_Some (listeners (db (router (snd (listen_channel t c s)))) !! c)) as [n Hn].
  { rewrite listen_channel_cases in Hok |- *.
    destruct (listeners (db (router s)) !! c) as [n |] eqn:Hl.
    - exists n. exact Hl.
    - cbv zeta in Hok |- *.
      destruct (acquire_fails t c); [discriminate Hok |].
      destruct (add_listener_fails t c); [discriminate Hok |].
      eexists. cbn [snd router db listeners]. apply lookup_insert_eq. }
  rewrite (listen_channel_cases t c (snd (listen_channel t c s))), Hn.
  repeat split; reflexivity.
Qed.

Lemma listen_channel_once_witness :
  fst (listen_channel reliable "monitoring_events"
         (snd (listen_channel reliable "monitoring_events" idle_router))) = Ok tt
  /\ router (snd (listen_channel reliable "monitoring_events"
                    (snd (listen_channel reliable "monitoring_events" idle_router))))
     = router (snd (listen_channel reliable "monitoring_events" idle_router))
  /\ ops (snd (listen_channel reliable "monitoring_events"
                 (snd (listen_channel reliable "monitoring_events" idle_router))))
     = ops (snd (listen_channel reliable "monitoring_events" idle_router)).
Proof.
  apply (listen_channel_once reliable "monitoring_events" idle_router).
  reflexivity.
Defined.

(** X24. A failed [add_listener] loses its connection: when [start_listening]
    stops on it, the connection acquired for the channel is in no listener
    entry and [cleanup] has nothing to release, so the run ends with the
    [Acquire] as its only transport call and no [Release]. *)
Theorem add_listener_failure_leaks_connection (t : Transport) (s : Sys)
    (c : string) (cbs : list callback) (rest : list (string * list callback))
    (e : exn) :
  running (router s) = false ->
  subscribers (router s) = (c, cbs) :: rest ->
  listeners (db (router s)) = ∅ ->
  acquire_fails t c = None ->
  add_listener_fails t c = Some e ->
  fst (start_listening t s) = Raise e
  /\ ops (snd (start_listening t s)) = (ops s ++ [Acquire (acquired (db (router s)))])%list
  /\ listeners (db (router (snd (start_listening t s)))) = ∅
  /\ acquired (db (router (snd (start_listening t s)))) = S (acquired (db (router s)))
  /\ running (router (snd (start_listening t s))) = false.
Proof.
  intros Hr Hs Hl Ha Hadd.
  unfold start_listening, guarded, get_running, set_running, modify, gets,
    get_active_channels, mbind, M_bind, bind.
  rewrite Hr. cbn [router subscribers running db]. rewrite Hs. cbn [map fst listen_loop].
  unfold mbind, M_bind, bind.
  rewrite listen_channel_cases. cbn [router db listeners acquired].
  rewrite Hl, lookup_empty, Ha, Hadd.
  unfold py_print, put_line, set_running, modify, raise, mbind, M_bind, bind.
  cbn [fst snd].
  match goal with
  | |- context [cleanup ?s2] =>
      rewrite (cleanup_unfold s2);
      destruct (unlisten_all_leaves (get_active_channels (router s2)) s2)
        as (Hrt & Hops & _)
  end.
  cbn [fst snd router ops db listeners acquired running] in Hrt, Hops |- *.
  rewrite Hrt, Hops. repeat split; reflexivity.
Qed.

Lemma add_listener_failure_leaks_connection_witness :
  fst (start_listening add_listener_down idle_router)
  = Raise (TransportError "connection is closed")
  /\ ops (snd (start_listening add_listener_down idle_router))
     = (ops idle_router ++ [Acquire (acquired (db (router idle_router)))])%list
  /\ listeners (db (router (snd (start_listening add_listener_down idle_router)))) = ∅
  /\ acquired (db (router (snd (start_listening add_listener_down idle_router))))
     = S (acquired (db (router idle_router)))
  /\ running (router (snd (start_listening add_listener_down idle_router))) = false.
Proof.
  apply (add_listener_failure_leaks_connection add_listener_down idle_router
           "monitoring_events" [1%nat] [("performance_events", [2%nat])]
           (TransportError "connection is closed"));
    reflexivity.
Defined.

(** X25. [unlisten_channel] does not undo [listen_channel]: after a
    [listen_channel] that returned, [unlisten_channel] for the same channel
    returns normally and changes nothing but the log, to which it adds the
    [TypeError] of [remove_listener].  The channel is still in [listeners],
    with its connection, and no connection has been handed back. *)
Theorem unlisten_does_not_undo_listen (t : Transport) (c : string) (s : Sys) :
  fst (listen_channel t c s) = Ok tt ->
  let s1 := snd (listen_channel t c s) in
  unlisten_channel c s1
  = (Ok tt, MkSys (router s1) (ops s1) (out s1 ++ [unlisten_error_line c]))
  /\ is_Some (listeners (db (router s1)) !! c).
Proof.
  intros Hok. cbv zeta.
  assert (is_Some (listeners (db (router (snd (listen_channel t c s)))) !! c)) as [n Hn].
  { rewrite listen_channel_cases in Hok |- *.
    destruct (listeners (db (router s)) !! c) as [n |] eqn:Hl.
    - exists n. exact Hl.
    - cbv zeta in Hok |- *.
      destruct (acquire_fails t c); [discriminate Hok |].
      destruct (add_listener_fails t c); [discriminate Hok |].
      eexists. cbn [snd router db listeners]. apply lookup_insert_eq. }
  split; [| exists n; exact Hn].
  rewrite unlisten_channel_cases, Hn. reflexivity.
Qed.

Lemma unlisten_does_not_undo_listen_witness :
  let s1 := snd (listen_channel reliable "monitoring_events" idle_router) in
  unlisten_channel "monitoring_events" s1
  = (Ok tt, MkSys (router s1) (ops s1)
              (out s1 ++ [unlisten_error_line "monitoring_events"]))
  /\ is_Some (listeners (db (router s1)) !! "monitoring_events").
Proof.
  apply (unlisten_does_not_undo_listen reliable "monitoring_events" idle_router).
  reflexivity.
Defined.

(** X26. [emit] publishes at most once, and only what [json.dumps] made of
    the event: the notifications sent are none when [json.dumps], [acquire]
    or [pg_notify] raises, and otherwise the one of the dumped payload on the
    given channel. *)
Theorem emit_publishes_at_most_once (json_dumps : observation -> result string)
    (t : Transport) (channel : string) (data : observation) (s : Sys) :
  published (ops (snd (emit json_dumps t channel data s)))
  = (published (ops s)
     ++ match json_dumps data with
        | Raise _ => []
        | Ok payload =>
            match acquire_fails t channel, execute_fails t channel payload with
            | None, None => [(channel, payload)]
            | _, _ => []
            end
        end)%list.
Proof.
  unfold emit, notify, lift, try_except, pool_acquire, transport_call, set_db,
    record_op, py_print, put_line, modify, gets, raise,
    mbind, mret, M_bind, M_ret, bind, ret.
  destruct (json_dumps data) as [payload | e]; cbn; [| rewrite app_nil_r; reflexivity].
  destruct (acquire_fails t channel) as [e |]; cbn; [rewrite app_nil_r; reflexivity |].
  destruct (execute_fails t channel payload) as [e |]; cbn;
    unfold published; rewrite !omap_app; cbn; rewrite ?app_nil_r; reflexivity.
Qed.

(** ** SQLGenerator *)

(** X27. [build_select] builds nothing: for every table, column list, filter,
    limit and schema, and whatever [is_safe] would answer, it raises.  An
    empty table name gives the [ValueError] of the name check; any other name
    stops in [_is_valid_identifier] with [UnboundLocalError]. *)
Theorem build_select_never_returns (is_safe : string -> bool)
    (table columns : string) (where_ : option string) (limit : option Z)
    (schema : string) :
  match build_select is_safe table columns where_ limit schema with
  | inl _ => False
  | inr (SqlValueError _) => table = ""
  | inr (UnboundLocalError _) => table <> ""
  end.
Proof.
  unfold build_select, _is_valid_identifier.
  destruct (String.eqb_spec table "") as [-> | Hne]; [reflexivity | exact Hne].
Qed.
